(** * MedAssist chat client: session store, session directory, auto-scroll

    A shallow embedding of the client-side state logic of the medical Q&A UI
    (the hooks [useChat], [useChatHistory] and [useAutoScroll], the helpers
    [generateSessionId], [validateMessage], [truncateText] and
    [formatTimestamp], [ApiService] with its response interceptor, the
    handlers of [App.tsx], the input form, message bubble and scroll effect
    of [components/chat-component.tsx], and the session list item of the
    layout components) and the properties the specification states about
    them, followed by further properties read off the code.

    Modelling conventions.
    - A JavaScript string is the list of its UTF-16 code units, so that
      [length] is the [.length] of the source.
    - A React handler never reads state directly: it reads the values its
      closure captured at render time and enqueues updates.  A handler is
      therefore a function from its closure and its inputs to the list of
      updates it enqueues; [commit] applies the queue in order, as React does
      when it processes the batch.
    - An [async] function is cut at its [await]: the part before it
      ([_begin]) returns the updates and the remote request it suspends on,
      the part after it ([_resume]) takes the outcome of that request.
    - [Date.now()], [new Date().toISOString()] and [Math.random()] are read
      from the environment; their readings are parameters. *)

From Stdlib Require Import List String Ascii Bool ZArith NArith QArith Lia.
From Stdlib Require Import DecimalString DecimalZ.
Import ListNotations.

Local Open Scope Z_scope.

(* ================================================================== *)
(** ** JavaScript strings *)
(* ================================================================== *)

Definition jsstring := list N.

(** A source literal made of ASCII characters only. *)
Definition lit (s : string) : jsstring :=
  map N_of_ascii (list_ascii_of_string s).

Definition jsstring_eqb (a b : jsstring) : bool :=
  if list_eq_dec N.eq_dec a b then true else false.

(** Truthiness of a string: every string but the empty one. *)
Definition truthy (s : jsstring) : bool :=
  match s with [] => false | _ :: _ => true end.

(** WhiteSpace and LineTerminator code units, what [String.prototype.trim]
    strips. *)
Definition is_whitespace (c : N) : bool :=
  ((9 <=? c) && (c <=? 13) || (c =? 32) || (c =? 160) || (c =? 5760)
   || (8192 <=? c) && (c <=? 8202) || (c =? 8232) || (c =? 8233)
   || (c =? 8239) || (c =? 8287) || (c =? 12288) || (c =? 65279))%N.

Fixpoint trimStart (s : jsstring) : jsstring :=
  match s with
  | [] => []
  | c :: t => if is_whitespace c then trimStart t else s
  end.

Definition trimEnd (s : jsstring) : jsstring := rev (trimStart (rev s)).

Definition trim (s : jsstring) : jsstring := trimEnd (trimStart s).

Fixpoint startsWith (s sub : jsstring) : bool :=
  match sub, s with
  | [], _ => true
  | _ :: _, [] => false
  | a :: sub', b :: s' => (a =? b)%N && startsWith s' sub'
  end.

(** [s.includes(sub)] *)
Fixpoint includes (s sub : jsstring) : bool :=
  startsWith s sub ||
  match s with
  | [] => false
  | _ :: t => includes t sub
  end.

(** [s.substring(a, b)] for non-negative indices: the bounds are clamped to
    the length and swapped when out of order. *)
Definition substring (s : jsstring) (a b : nat) : jsstring :=
  let lo := Nat.min a b in
  let hi := Nat.max a b in
  firstn (hi - lo) (skipn lo s).

(** Decimal rendering of an integral number, as in a template literal. *)
Definition number_to_string (z : Z) : jsstring :=
  lit (NilZero.string_of_int (Z.to_int z)).

(* ================================================================== *)
(** ** Data model ([services/types.ts]) *)
(* ================================================================== *)

Inductive MessageType := user | assistant.

Definition MessageType_eqb (a b : MessageType) : bool :=
  match a, b with
  | user, user | assistant, assistant => true
  | _, _ => false
  end.

Module ContextDocument.
Record t := mk {
  question : jsstring;
  answer : jsstring;
  category : option jsstring;
  similarity_score : Q
}.
End ContextDocument.

Module ChatMessage.
Record t := mk {
  id : Z;
  message_type : MessageType;
  content : jsstring;
  timestamp : jsstring;
  evaluation_score : option Q;
  retrieved_context : option (list ContextDocument.t)
}.
End ChatMessage.

Module ChatResponse.
Record t := mk {
  message_id : Z;
  session_id : jsstring;
  response : jsstring;
  evaluation_score : option Q;
  retrieved_context : list ContextDocument.t;
  response_time : Q;
  timestamp : jsstring;
  is_medical : bool;
  query_type : option jsstring
}.
End ChatResponse.

Module ChatSession.
Record t := mk {
  session_id : jsstring;
  created_at : jsstring;
  message_count : Z;
  is_active : bool
}.
End ChatSession.

Module ChatHistoryResponse.
Record t := mk {
  session_id : jsstring;
  messages : list ChatMessage.t;
  total_count : Z;
  has_more : bool
}.
End ChatHistoryResponse.

Module SendMessageRequest.
Record t := mk {
  message : jsstring;
  session_id : option jsstring
}.
End SendMessageRequest.

(* ================================================================== *)
(** ** Helpers ([utils/helpers]) *)
(* ================================================================== *)

(** [`session-${Date.now()}-${Math.random().toString(36).substring(2, 9)}`];
    [now] is the clock reading and [rnd] the base-36 rendering of the random
    number. *)
Definition generateSessionId (now : Z) (rnd : jsstring) : jsstring :=
  lit "session-" ++ number_to_string now ++ lit "-" ++ substring rnd 2 9.

Record Validation := {
  isValid : bool;
  validation_error : option jsstring
}.

Definition validateMessage (message : jsstring) : Validation :=
  if negb (truthy (trim message)) then
    {| isValid := false; validation_error := Some (lit "Message cannot be empty") |}
  else if (2000 <? Z.of_nat (List.length message)) then
    {| isValid := false;
       validation_error := Some (lit "Message is too long (max 2000 characters)") |}
  else
    {| isValid := true; validation_error := None |}.

(* ================================================================== *)
(** ** Handlers as update queues with exceptions *)
(* ================================================================== *)

(** What a [catch] clause can receive: an [Error] object with its message, or
    any other thrown value. *)
Inductive Thrown :=
| ErrorObject (message : jsstring)
| OtherValue.

Inductive Completion (A : Type) :=
| Normal (a : A)
| Throw (e : Thrown).
Arguments Normal {A} a.
Arguments Throw {A} e.

(** A synchronous stretch of a handler over updates of type [U]: the updates
    it enqueued, and how it completed. *)
Definition M (U A : Type) : Type := (list U * Completion A)%type.

Section Handler.
Context {U : Type}.

Definition ret {A} (a : A) : M U A := ([], Normal a).

Definition bind {A B} (m : M U A) (k : A -> M U B) : M U B :=
  match m with
  | (us, Normal a) => let (us', c) := k a in (us ++ us', c)
  | (us, Throw e) => (us, Throw e)
  end.

(** One call of a state setter. *)
Definition enqueue (u : U) : M U unit := ([u], Normal tt).

(** The value of an awaited promise once it has settled. *)
Definition await {A} (outcome : Completion A) : M U A := ([], outcome).

(** [try { body } catch (error) { handler error }] *)
Definition try_catch {A} (body : M U A) (handler : Thrown -> M U A) : M U A :=
  match body with
  | (us, Normal a) => (us, Normal a)
  | (us, Throw e) => let (us', c) := handler e in (us ++ us', c)
  end.

(** [try { body } finally { final }] *)
Definition try_finally {A} (body : M U A) (final : M U unit) : M U A :=
  let (us, c) := body in
  match final with
  | (us', Normal _) => (us ++ us', c)
  | (us', Throw e) => (us ++ us', Throw e)
  end.
End Handler.

Declare Scope handler_scope.
Delimit Scope handler_scope with handler.
Notation "x <- m ;; k" := (bind m (fun x => k))
  (at level 61, m at next level, right associativity) : handler_scope.
Notation "m ;;; k" := (bind m (fun _ => k))
  (at level 61, right associativity) : handler_scope.

(** [error instanceof Error ? error.message : fallback] *)
Definition error_message (e : Thrown) (fallback : jsstring) : jsstring :=
  match e with
  | ErrorObject m => m
  | OtherValue => fallback
  end.

(* ================================================================== *)
(** ** Remote service ([services/api.ts]) *)
(* ================================================================== *)

(** The request each [ApiService] method sends. *)
Inductive Request :=
| PostChatMessage (request : SendMessageRequest.t)
| GetChatHistory (sessionId : jsstring) (limit offset : Z)
| GetChatSessions (limit offset : Z)
| DeleteChatSession (sessionId : jsstring).

Module ApiService.
Definition sendMessage (request : SendMessageRequest.t) : Request :=
  PostChatMessage request.

(** [limit] and [offset] default to 50 and 0. *)
Definition getChatHistory (sessionId : jsstring) : Request :=
  GetChatHistory sessionId 50 0.

(** [limit] and [offset] default to 20 and 0. *)
Definition getChatSessions : Request := GetChatSessions 20 0.

Definition deleteChatSession (sessionId : jsstring) : Request :=
  DeleteChatSession sessionId.
End ApiService.


(* ================================================================== *)
(** ** Chat session store ([useChat]) *)
(* ================================================================== *)

Module useChat.

Local Open Scope handler_scope.

(** The four [useState] cells and the [useRef] cell of the hook. *)
Record State := {
  messages : list ChatMessage.t;
  currentSessionId : jsstring;
  isLoading : bool;
  error : option jsstring;
  lastMessageRef : jsstring
}.

(** A setter call; [setMessages] takes the updater function (a plain value
    [v] is the constant updater).  The assignment to [lastMessageRef.current]
    is queued with the setter calls: no handler reads the ref after it has
    written it. *)
Inductive Update :=
| setMessages (updater : list ChatMessage.t -> list ChatMessage.t)
| setCurrentSessionId (v : jsstring)
| setIsLoading (v : bool)
| setError (v : option jsstring)
| setLastMessageRef (v : jsstring).

Definition apply (u : Update) (st : State) : State :=
  match u with
  | setMessages updater =>
      {| messages := updater (messages st);
         currentSessionId := currentSessionId st;
         isLoading := isLoading st;
         error := error st;
         lastMessageRef := lastMessageRef st |}
  | setCurrentSessionId v =>
      {| messages := messages st;
         currentSessionId := v;
         isLoading := isLoading st;
         error := error st;
         lastMessageRef := lastMessageRef st |}
  | setIsLoading v =>
      {| messages := messages st;
         currentSessionId := currentSessionId st;
         isLoading := v;
         error := error st;
         lastMessageRef := lastMessageRef st |}
  | setError v =>
      {| messages := messages st;
         currentSessionId := currentSessionId st;
         isLoading := isLoading st;
         error := v;
         lastMessageRef := lastMessageRef st |}
  | setLastMessageRef v =>
      {| messages := messages st;
         currentSessionId := currentSessionId st;
         isLoading := isLoading st;
         error := error st;
         lastMessageRef := v |}
  end.

(** Processing a queue of updates, oldest first. *)
Definition commit (us : list Update) (st : State) : State :=
  fold_left (fun s u => apply u s) us st.

(** Every state the cells go through while a queue is processed one update
    at a time, the starting state included. *)
Fixpoint states_through (us : list Update) (st : State) : list State :=
  match us with
  | [] => [st]
  | u :: us' => st :: states_through us' (apply u st)
  end.

(** What [sendMessage] captures from a render
    ([useCallback(..., [currentSessionId, isLoading])]). *)
Record Closure := {
  seen_currentSessionId : jsstring;
  seen_isLoading : bool
}.

Definition render (st : State) : Closure :=
  {| seen_currentSessionId := currentSessionId st;
     seen_isLoading := isLoading st |}.

(** The state at mount. *)
Definition initial (now : Z) (rnd : jsstring) : State :=
  {| messages := [];
     currentSessionId := generateSessionId now rnd;
     isLoading := false;
     error := None;
     lastMessageRef := [] |}.

(** The marker U+274C followed by [" Error:"]. *)
Definition error_marker : jsstring := 10060%N :: lit " Error:".

Definition userMessage (message : jsstring) (now : Z) (iso : jsstring)
  : ChatMessage.t :=
  {| ChatMessage.id := now;
     ChatMessage.message_type := user;
     ChatMessage.content := message;
     ChatMessage.timestamp := iso;
     ChatMessage.evaluation_score := None;
     ChatMessage.retrieved_context := None |}.

Definition assistantMessage (response : ChatResponse.t) : ChatMessage.t :=
  {| ChatMessage.id := ChatResponse.message_id response;
     ChatMessage.message_type := assistant;
     ChatMessage.content := ChatResponse.response response;
     ChatMessage.timestamp := ChatResponse.timestamp response;
     ChatMessage.evaluation_score := ChatResponse.evaluation_score response;
     ChatMessage.retrieved_context :=
       Some (ChatResponse.retrieved_context response) |}.

Definition errorMessageObj (errorMessage : jsstring) (now : Z) (iso : jsstring)
  : ChatMessage.t :=
  {| ChatMessage.id := now + 1;
     ChatMessage.message_type := assistant;
     ChatMessage.content :=
       error_marker ++ lit " " ++ errorMessage ++ lit ". Please try again.";
     ChatMessage.timestamp := iso;
     ChatMessage.evaluation_score := None;
     ChatMessage.retrieved_context := None |}.

(** [sendMessage] up to its [await]: the guard, the bookkeeping, the
    optimistic user turn, and the request it suspends on ([None] when it
    returns without sending). *)
Definition sendMessage_begin (cl : Closure) (message : jsstring)
    (now : Z) (iso : jsstring) : M Update (option Request) :=
  if seen_isLoading cl || negb (truthy (trim message)) then ret None
  else
    enqueue (setLastMessageRef message) ;;;
    enqueue (setIsLoading true) ;;;
    enqueue (setError None) ;;;
    enqueue (setMessages (fun prev => prev ++ [userMessage message now iso])) ;;;
    ret (Some (ApiService.sendMessage
                 {| SendMessageRequest.message := message;
                    SendMessageRequest.session_id :=
                      Some (seen_currentSessionId cl) |})).

(** [sendMessage] from its [await] on; [now] and [iso] are the clock readings
    of the [catch] clause. *)
Definition sendMessage_resume (outcome : Completion ChatResponse.t)
    (now : Z) (iso : jsstring) : M Update unit :=
  try_finally
    (try_catch
       (response <- await outcome ;;
        enqueue (setMessages (fun prev => prev ++ [assistantMessage response])))
       (fun error =>
          let errorMessage := error_message error (lit "Failed to send message") in
          enqueue (setError (Some errorMessage)) ;;;
          enqueue (setMessages
                     (fun prev => prev ++ [errorMessageObj errorMessage now iso]))))
    (enqueue (setIsLoading false)).

Definition clearChat : M Update unit :=
  enqueue (setMessages (fun _ => [])) ;;;
  enqueue (setError None).

Definition startNewChat (now : Z) (rnd : jsstring) : M Update unit :=
  enqueue (setMessages (fun _ => [])) ;;;
  enqueue (setCurrentSessionId (generateSessionId now rnd)) ;;;
  enqueue (setError None).

(** [loadSession] up to its [await].  These statements already stand inside
    the [try] block; setter calls do not throw. *)
Definition loadSession_begin (sessionId : jsstring) : M Update (option Request) :=
  enqueue (setIsLoading true) ;;;
  enqueue (setError None) ;;;
  ret (Some (ApiService.getChatHistory sessionId)).

Definition loadSession_resume (sessionId : jsstring)
    (outcome : Completion ChatHistoryResponse.t) : M Update unit :=
  try_finally
    (try_catch
       (history <- await outcome ;;
        enqueue (setMessages (fun _ => ChatHistoryResponse.messages history)) ;;;
        enqueue (setCurrentSessionId sessionId))
       (fun error =>
          let errorMessage :=
            error_message error (lit "Failed to load chat history") in
          enqueue (setError (Some errorMessage))))
    (enqueue (setIsLoading false)).

(** The test of the [filter] in [retryLastMessage], before negation. *)
Definition is_error_turn (msg : ChatMessage.t) : bool :=
  MessageType_eqb (ChatMessage.message_type msg) assistant
  && includes (ChatMessage.content msg) error_marker.

Definition is_user_turn (msg : ChatMessage.t) : bool :=
  MessageType_eqb (ChatMessage.message_type msg) user.

Definition without_error_turns (prev : list ChatMessage.t) : list ChatMessage.t :=
  filter (fun msg => negb (is_error_turn msg)) prev.

(** [retryLastMessage] up to the [await] inside the [sendMessage] it calls;
    [current] is [lastMessageRef.current] as read on entry.  What follows the
    [await] is the rest of that [sendMessage]. *)
Definition retryLastMessage_begin (cl : Closure) (current : jsstring)
    (now : Z) (iso : jsstring) : M Update (option Request) :=
  if truthy current then
    enqueue (setMessages without_error_turns) ;;;
    sendMessage_begin cl current now iso
  else ret None.

(** *** The hook driven by events

    Handlers are the ones of the latest render; requests in flight settle in
    any order, each at its own time. *)

Inductive Reply :=
| ChatReply (outcome : Completion ChatResponse.t)
| HistoryReply (outcome : Completion ChatHistoryResponse.t).

Inductive Event :=
| SendMessage (message : jsstring) (now : Z) (iso : jsstring)
| RetryLastMessage (now : Z) (iso : jsstring)
| ClearChat
| StartNewChat (now : Z) (rnd : jsstring)
| LoadSession (sessionId : jsstring)
| Settle (n : nat) (reply : Reply) (now : Z) (iso : jsstring).

Record World := {
  hook : State;
  inflight : list Request
}.

Definition suspended (c : Completion (option Request)) : list Request :=
  match c with
  | Normal (Some r) => [r]
  | _ => []
  end.

Definition call (w : World) (h : M Update (option Request)) : World :=
  {| hook := commit (fst h) (hook w);
     inflight := inflight w ++ suspended (snd h) |}.

Definition run_sync (w : World) (h : M Update unit) : World :=
  {| hook := commit (fst h) (hook w); inflight := inflight w |}.

Definition remove_nth {A} (n : nat) (l : list A) : list A :=
  firstn n l ++ skipn (S n) l.

Definition step (w : World) (e : Event) : World :=
  match e with
  | SendMessage message now iso =>
      call w (sendMessage_begin (render (hook w)) message now iso)
  | RetryLastMessage now iso =>
      call w (retryLastMessage_begin (render (hook w))
                (lastMessageRef (hook w)) now iso)
  | ClearChat => run_sync w clearChat
  | StartNewChat now rnd => run_sync w (startNewChat now rnd)
  | LoadSession sessionId => call w (loadSession_begin sessionId)
  | Settle n reply now iso =>
      match nth_error (inflight w) n, reply with
      | Some (PostChatMessage _), ChatReply outcome =>
          {| hook := commit (fst (sendMessage_resume outcome now iso)) (hook w);
             inflight := remove_nth n (inflight w) |}
      | Some (GetChatHistory sessionId _ _), HistoryReply outcome =>
          {| hook := commit (fst (loadSession_resume sessionId outcome)) (hook w);
             inflight := remove_nth n (inflight w) |}
      | _, _ => w
      end
  end.

Definition run (w : World) (es : list Event) : World :=
  fold_left step es w.

End useChat.

(* ================================================================== *)
(** ** Session directory store ([hooks/useChatHistory.ts]) *)
(* ================================================================== *)

Module useChatHistory.

Local Open Scope handler_scope.

Record State := {
  sessions : list ChatSession.t;
  loading : bool;
  error : option jsstring
}.

Inductive Update :=
| setSessions (updater : list ChatSession.t -> list ChatSession.t)
| setLoading (v : bool)
| setError (v : option jsstring).

Definition apply (u : Update) (st : State) : State :=
  match u with
  | setSessions updater =>
      {| sessions := updater (sessions st);
         loading := loading st;
         error := error st |}
  | setLoading v =>
      {| sessions := sessions st; loading := v; error := error st |}
  | setError v =>
      {| sessions := sessions st; loading := loading st; error := v |}
  end.

Definition commit (us : list Update) (st : State) : State :=
  fold_left (fun s u => apply u s) us st.

Definition refreshSessions_begin : M Update (option Request) :=
  enqueue (setLoading true) ;;;
  enqueue (setError None) ;;;
  ret (Some ApiService.getChatSessions).

Definition refreshSessions_resume (outcome : Completion (list ChatSession.t))
  : M Update unit :=
  try_finally
    (try_catch
       (sessionsData <- await outcome ;;
        enqueue (setSessions (fun _ => sessionsData)))
       (fun error =>
          let errorMessage :=
            error_message error (lit "Failed to load chat sessions") in
          enqueue (setError (Some errorMessage))))
    (enqueue (setLoading false)).

(** [deleteSession] up to its [await]: the request goes out, nothing is
    enqueued. *)
Definition deleteSession_begin (sessionId : jsstring) : M Update (option Request) :=
  ret (Some (ApiService.deleteChatSession sessionId)).

Definition keeps (sessionId : jsstring) (session : ChatSession.t) : bool :=
  negb (jsstring_eqb (ChatSession.session_id session) sessionId).

Definition deleteSession_resume (sessionId : jsstring)
    (outcome : Completion unit) : M Update unit :=
  try_catch
    (_ <- await outcome ;;
     enqueue (setSessions (fun prev => filter (keeps sessionId) prev)))
    (fun error =>
       let errorMessage := error_message error (lit "Failed to delete session") in
       enqueue (setError (Some errorMessage))).

End useChatHistory.

(* ================================================================== *)
(** ** Input form ([MessageInput] of [components/chat-component.tsx]) *)
(* ================================================================== *)

Module MessageInput.

Record State := {
  message : jsstring;
  error : option jsstring
}.

Inductive Update :=
| setMessage (v : jsstring)
| setError (v : option jsstring).

Definition apply (u : Update) (st : State) : State :=
  match u with
  | setMessage v => {| message := v; error := error st |}
  | setError v => {| message := message st; error := v |}
  end.

Definition commit (us : list Update) (st : State) : State :=
  fold_left (fun s u => apply u s) us st.

(** [validation.error || 'Invalid message'] *)
Definition error_or_default (e : option jsstring) : jsstring :=
  match e with
  | Some s => if truthy s then s else lit "Invalid message"
  | None => lit "Invalid message"
  end.

(** [handleSubmit]: the form's own updates, and the text handed to
    [onSendMessage] when validation passes. *)
Definition handleSubmit (st : State) : list Update * option jsstring :=
  let validation := validateMessage (message st) in
  if negb (isValid validation) then
    ([setError (Some (error_or_default (validation_error validation)))], None)
  else
    ([setMessage []; setError None], Some (message st)).

End MessageInput.

(** The path of a submitted text in [App]: [MessageInput.handleSubmit], then
    [onSendMessage = handleSendMessage], which calls [useChat.sendMessage].
    Returns the updates of the form, and the store's handler run when the
    form let the text through. *)
Definition submit (input : MessageInput.State) (cl : useChat.Closure)
    (now : Z) (iso : jsstring)
  : list MessageInput.Update * M useChat.Update (option Request) :=
  match MessageInput.handleSubmit input with
  | (us, Some text) => (us, useChat.sendMessage_begin cl text now iso)
  | (us, None) => (us, ret None)
  end.

(* ================================================================== *)
(** ** Scrolling ([useAutoScroll], [ChatInterface]) *)
(* ================================================================== *)

(** The scroll geometry of an element, in CSS pixels. *)
Record Element := {
  scrollTop : Z;
  scrollHeight : Z;
  clientHeight : Z
}.

Inductive ScrollBehavior := smooth | auto.

Record ScrollToOptions := {
  top : Z;
  behavior : ScrollBehavior
}.

(** The body of the effect of [useAutoScroll]; [current] is
    [elementRef.current] when the effect runs, that is after the render that
    changed [dependency] has been laid out.  [Some o] is the call
    [element.scrollTo(o)]. *)
Definition useAutoScroll_effect (enabled : bool) (current : option Element)
  : option ScrollToOptions :=
  match enabled, current with
  | true, Some element =>
      let scrollHeight := scrollHeight element in
      let height := clientHeight element in
      let maxScrollTop := scrollHeight - height in
      if maxScrollTop - 100 <? scrollTop element then
        Some {| top := scrollHeight; behavior := smooth |}
      else None
  | _, _ => None
  end.

(** The effect of [ChatInterface] on [messages, isLoading]:
    [messagesEndRef.current] is the end marker when mounted, and
    [chatContainerRef.current] the scrolling container, which the effect does
    not read.  [Some b] is the call [scrollIntoView({ behavior: b })] on the
    marker. *)
Definition ChatInterface_scroll_effect (messagesEndRef : option unit)
    (chatContainerRef : option Element) : option ScrollBehavior :=
  match messagesEndRef with
  | Some _ => Some smooth
  | None => None
  end.

(** Distance from the current offset to the lowest offset the element can
    scroll to. *)
Definition distance_from_bottom (e : Element) : Z :=
  (scrollHeight e - clientHeight e) - scrollTop e.

(** The geometry after content of height [d] has been appended below: the
    content is taller, the offset stays where the viewer left it. *)
Definition grown (d : Z) (e : Element) : Element :=
  {| scrollTop := scrollTop e;
     scrollHeight := scrollHeight e + d;
     clientHeight := clientHeight e |}.

(* ================================================================== *)
(** ** More helpers ([utils/helpers]) *)
(* ================================================================== *)

(** [text.slice(0, end)] for an integral [end]: a negative [end] counts from
    the end of the string, and both bounds are clamped to the string. *)
Definition slice0 (text : jsstring) (e : Z) : jsstring :=
  let len := Z.of_nat (List.length text) in
  let stop := if e <? 0 then Z.max (len + e) 0 else Z.min e len in
  firstn (Z.to_nat stop) text.

Definition truncateText (text : jsstring) (maxLength : Z) : jsstring :=
  if Z.of_nat (List.length text) <=? maxLength then text
  else slice0 text maxLength ++ lit "...".

(** [formatTimestamp]: [date] is [new Date(timestamp).getTime()] in
    milliseconds ([None] for an invalid date, whose time is [NaN] and fails
    every comparison), [now] the clock reading, and [localeDate] what
    [date.toLocaleDateString()] returns.  Times are integral, so
    [Math.floor] of a quotient is the floor division. *)
Definition formatTimestamp (date : option Z) (now : Z) (localeDate : jsstring)
  : jsstring :=
  match date with
  | None => localeDate
  | Some time =>
      let diffInMs := now - time in
      let diffInMinutes := diffInMs / (1000 * 60) in
      let diffInHours := diffInMinutes / 60 in
      let diffInDays := diffInHours / 24 in
      if diffInMinutes <? 1 then lit "Just now"
      else if diffInMinutes <? 60 then number_to_string diffInMinutes ++ lit "m ago"
      else if diffInHours <? 24 then number_to_string diffInHours ++ lit "h ago"
      else if diffInDays <? 7 then number_to_string diffInDays ++ lit "d ago"
      else localeDate
  end.

(* ================================================================== *)
(** ** Error mapping and health probe ([services/api.ts]) *)
(* ================================================================== *)



Section ErrorMapping.

(** The rendering [String(n)] of a number. *)
Variable number_text : Q -> jsstring.








End ErrorMapping.

(** [ApiService.checkApiConnection]; [health] is the outcome of
    [getHealth()], whose payload is not read. *)
Definition checkApiConnection {U H : Type} (health : Completion H) : M U bool :=
  try_catch (bind (await health) (fun _ => ret true)) (fun _ => ret false).

(* ================================================================== *)
(** ** Application shell ([App.tsx]) *)
(* ================================================================== *)

Module App.

Local Open Scope handler_scope.

Record State := {
  isConnected : bool;
  isReconnecting : bool;
  appError : option jsstring
}.

(** What [checkConnection] does, in order: calls of its state setters, and
    the call of [refreshSessions]. *)
Inductive Action :=
| setIsConnected (v : bool)
| setIsReconnecting (v : bool)
| setAppError (v : option jsstring)
| refreshSessions.

Definition apply (a : Action) (st : State) : State :=
  match a with
  | setIsConnected v =>
      {| isConnected := v;
         isReconnecting := isReconnecting st;
         appError := appError st |}
  | setIsReconnecting v =>
      {| isConnected := isConnected st;
         isReconnecting := v;
         appError := appError st |}
  | setAppError v =>
      {| isConnected := isConnected st;
         isReconnecting := isReconnecting st;
         appError := v |}
  | refreshSessions => st
  end.

Definition commit (actions : list Action) (st : State) : State :=
  fold_left (fun s a => apply a s) actions st.

(** The state at mount: connected, not reconnecting, no error. *)
Definition initial : State :=
  {| isConnected := true; isReconnecting := false; appError := None |}.

(** [checkConnection] from start to end; [health] is the outcome of the
    health request and [refreshed] how the promise of [refreshSessions()]
    settles, consulted only if the handler gets to await it. *)
Definition checkConnection {H : Type} (health : Completion H)
    (refreshed : Completion unit) : M Action unit :=
  try_finally
    (try_catch
       (enqueue (setIsReconnecting true) ;;;
        connected <- checkApiConnection health ;;
        enqueue (setIsConnected connected) ;;;
        if negb connected then
          enqueue (setAppError
                     (Some (lit "Unable to connect to the API server. Please check if the server is running.")))
        else
          enqueue (setAppError None) ;;;
          enqueue refreshSessions ;;;
          await refreshed)
       (fun error =>
          enqueue (setIsConnected false) ;;;
          enqueue (setAppError
                     (Some (lit "Connection failed. Please check your network connection.")))))
    (enqueue (setIsReconnecting false)).

(** What [handleSendMessage] calls, in order. *)
Inductive SendAction :=
| call_sendMessage (message : jsstring)
| call_refreshSessions.

(** [handleSendMessage]; [sent] and [refreshed] are how the promises of
    [sendMessage(message)] and [refreshSessions()] settle.  The [catch]
    clause only logs. *)
Definition handleSendMessage (message : jsstring)
    (sent refreshed : Completion unit) : M SendAction unit :=
  try_catch
    (enqueue (call_sendMessage message) ;;;
     await sent ;;;
     enqueue call_refreshSessions ;;;
     await refreshed)
    (fun error => ret tt).

(** [handleDeleteSession] once the remote delete has settled with [outcome]:
    the rest of [deleteSession] on the directory, then the test against the
    [currentSessionId] the handler captured.  The [catch] clause only logs. *)
Definition handleDeleteSession (currentSessionId sessionId : jsstring)
    (outcome : Completion unit) (now : Z) (rnd : jsstring)
  : M useChatHistory.Update unit * M useChat.Update unit :=
  let deleted := useChatHistory.deleteSession_resume sessionId outcome in
  (deleted,
   try_catch
     (await (snd deleted) ;;;
      if jsstring_eqb sessionId currentSessionId
      then useChat.startNewChat now rnd
      else ret tt)
     (fun error => ret tt)).

End App.

(** How the promise of [useChat.sendMessage] settles: at once when the guard
    returns, otherwise as the part after the [await] completes. *)
Definition sendMessage_promise (cl : useChat.Closure) (message : jsstring)
    (now : Z) (iso : jsstring) (outcome : Completion ChatResponse.t)
    (now' : Z) (iso' : jsstring) : Completion unit :=
  match snd (useChat.sendMessage_begin cl message now iso) with
  | Normal (Some _) => snd (useChat.sendMessage_resume outcome now' iso')
  | Normal None => Normal tt
  | Throw e => Throw e
  end.

(* ================================================================== *)
(** ** Message bubble ([MessageBubble] of [components/chat-component.tsx]) *)
(* ================================================================== *)

Module MessageBubble.

Definition isUser (message : ChatMessage.t) : bool :=
  MessageType_eqb (ChatMessage.message_type message) user.

(** [message.content.includes('❌ Error:')] *)
Definition isError (message : ChatMessage.t) : bool :=
  includes (ChatMessage.content message) (10060%N :: lit " Error:").

(** The condition under which the Retry button is rendered; [onRetry] tells
    whether the callback was passed. *)
Definition shows_retry (message : ChatMessage.t) (onRetry : bool) : bool :=
  negb (isUser message) && (isError message && onRetry).

(** The condition under which the evaluation score is rendered. *)
Definition shows_evaluation (message : ChatMessage.t) : bool :=
  negb (isUser message) && negb (isError message).

End MessageBubble.

(* ================================================================== *)
(** ** Session list item ([HistoryItem] of the layout components) *)
(* ================================================================== *)

Module HistoryItem.

(** The last element of [s.split(sep)] for a one-unit separator: what
    follows the last occurrence of [sep], or all of [s] when there is none. *)
Fixpoint up_to (sep : N) (s : jsstring) : jsstring :=
  match s with
  | [] => []
  | c :: t => if (c =? sep)%N then [] else c :: up_to sep t
  end.

Definition split_pop (s : jsstring) (sep : N) : jsstring :=
  rev (up_to sep (rev s)).

(** [`Chat ${session.session_id.split('-').pop()?.substring(0, 6)}`]; the
    array [split] returns is never empty, so [pop] returns a string. *)
Definition sessionTitle (session_id : jsstring) : jsstring :=
  lit "Chat " ++ substring (split_pop session_id 45%N) 0 6.

(** What the user and the timer do to one item. *)
Inductive Event :=
| DeleteClick
| RowClick
| Timeout.

(** The callbacks of the parent an item calls. *)
Inductive Output :=
| onDelete (sessionId : jsstring)
| onClick.

(** [handleDelete], [handleClick] and the timer callback, on the
    [showDeleteConfirm] of the latest render: the new value of the cell and
    the callbacks called.  A [Timeout] may come at any time; the item
    schedules one three seconds after each first click. *)
Definition handle (session_id : jsstring) (showDeleteConfirm : bool) (e : Event)
  : bool * list Output :=
  match e with
  | DeleteClick =>
      if showDeleteConfirm then (false, [onDelete session_id])
      else (true, [])
  | RowClick =>
      if negb showDeleteConfirm then (showDeleteConfirm, [onClick])
      else (showDeleteConfirm, [])
  | Timeout => (false, [])
  end.

Fixpoint run (session_id : jsstring) (showDeleteConfirm : bool) (es : list Event)
  : bool * list Output :=
  match es with
  | [] => (showDeleteConfirm, [])
  | e :: es' =>
      let (s, out) := handle session_id showDeleteConfirm e in
      let (s', out') := run session_id s es' in
      (s', out ++ out')
  end.

Definition is_delete_click (e : Event) : bool :=
  match e with DeleteClick => true | _ => false end.

Definition is_onDelete (o : Output) : bool :=
  match o with onDelete _ => true | onClick => false end.

End HistoryItem.

(* ================================================================== *)
(** ** Reachable states of the chat store *)
(* ================================================================== *)

(** The hook right after mount. *)
Definition mounted (now : Z) (rnd : jsstring) : useChat.World :=
  {| useChat.hook := useChat.initial now rnd; useChat.inflight := [] |}.

(** A request the hook can have in flight is a chat request with a text that
    is not blank and a session identifier, or a history request for the
    first page. *)
Definition well_formed_request (r : Request) : Prop :=
  match r with
  | PostChatMessage request =>
      truthy (trim (SendMessageRequest.message request)) = true
      /\ SendMessageRequest.session_id request <> None
  | GetChatHistory _ limit offset => limit = 50 /\ offset = 0
  | _ => False
  end.

(** The effect of a list of settled deletes on the directory, in order. *)
Definition settle_deletes (ds : list (jsstring * Completion unit))
    (st : useChatHistory.State) : useChatHistory.State :=
  fold_left
    (fun s d =>
       useChatHistory.commit
         (fst (useChatHistory.deleteSession_resume (fst d) (snd d))) s)
    ds st.

Definition succeeded (c : Completion unit) : bool :=
  match c with Normal _ => true | Throw _ => false end.

(** Whether a delete of [session_id] is among the successful ones of [ds]. *)
Definition deleted_in (ds : list (jsstring * Completion unit))
    (session_id : jsstring) : bool :=
  existsb (fun d => succeeded (snd d) && jsstring_eqb session_id (fst d)) ds.

(* ================================================================== *)
(** * Properties *)
(* ================================================================== *)

(** ** Strings *)

Lemma trimStart_nil_iff (s : jsstring) :
  trimStart s = [] <-> forallb is_whitespace s = true.
Proof.
  induction s as [|c t IH]; simpl.
  - tauto.
  - destruct (is_whitespace c); simpl.
    + exact IH.
    + split; discriminate.
Qed.

Lemma trimStart_head (s : jsstring) (c : N) (t : jsstring) :
  trimStart s = c :: t -> is_whitespace c = false.
Proof.
  induction s as [|a s' IH]; simpl.
  - discriminate.
  - destruct (is_whitespace a) eqn:Ha.
    + exact IH.
    + intros E. injection E as -> _. exact Ha.
Qed.

(** [!message.trim()] holds exactly of the strings made of white space. *)
Lemma trim_truthy (s : jsstring) :
  truthy (trim s) = negb (forallb is_whitespace s).
Proof.
  unfold trim, trimEnd.
  destruct (trimStart s) as [|c t] eqn:E.
  - apply trimStart_nil_iff in E. rewrite E. reflexivity.
  - assert (Hs : forallb is_whitespace s = false).
    { destruct (forallb is_whitespace s) eqn:F; [|reflexivity].
      apply trimStart_nil_iff in F. congruence. }
    rewrite Hs. simpl negb.
    apply trimStart_head in E.
    destruct (trimStart (rev (c :: t))) as [|d u] eqn:R.
    + apply trimStart_nil_iff in R.
      rewrite forallb_forall in R.
      specialize (R c). rewrite <- in_rev in R.
      rewrite R in E; [discriminate | left; reflexivity].
    + simpl. destruct (rev u ++ [d]) eqn:X; [|reflexivity].
      destruct (rev u); discriminate.
Qed.

Lemma startsWith_app (sub x : jsstring) : startsWith (sub ++ x) sub = true.
Proof.
  induction sub as [|a sub IH]; simpl.
  - destruct x; reflexivity.
  - rewrite N.eqb_refl. exact IH.
Qed.

Lemma includes_startsWith (s sub : jsstring) :
  startsWith s sub = true -> includes s sub = true.
Proof. destruct s; simpl; intros ->; reflexivity. Qed.

Lemma includes_prefix (sub x : jsstring) : includes (sub ++ x) sub = true.
Proof. apply includes_startsWith, startsWith_app. Qed.

Lemma jsstring_eqb_eq (a b : jsstring) : jsstring_eqb a b = true <-> a = b.
Proof.
  unfold jsstring_eqb. destruct (list_eq_dec N.eq_dec a b); split;
    congruence || discriminate.
Qed.

Lemma jsstring_eqb_false (a b : jsstring) : jsstring_eqb a b = false <-> a <> b.
Proof.
  unfold jsstring_eqb. destruct (list_eq_dec N.eq_dec a b); split;
    congruence || discriminate.
Qed.

(** ** Handlers *)

(** The error turn built by the [catch] clause of [sendMessage] passes the
    test [retryLastMessage] and the message bubble use to recognise one. *)
Lemma errorMessageObj_is_error_turn (m : jsstring) (now : Z) (iso : jsstring) :
  useChat.is_error_turn (useChat.errorMessageObj m now iso) = true.
Proof.
  unfold useChat.is_error_turn, useChat.errorMessageObj.
  cbn [ChatMessage.message_type ChatMessage.content].
  rewrite includes_prefix. reflexivity.
Qed.

Lemma without_error_turns_In (l : list ChatMessage.t) (msg : ChatMessage.t) :
  In msg (useChat.without_error_turns l)
  <-> In msg l /\ useChat.is_error_turn msg = false.
Proof.
  unfold useChat.without_error_turns. rewrite filter_In.
  destruct (useChat.is_error_turn msg); simpl; intuition congruence.
Qed.

Lemma without_error_turns_idem (l : list ChatMessage.t) :
  useChat.without_error_turns (useChat.without_error_turns l)
  = useChat.without_error_turns l.
Proof.
  unfold useChat.without_error_turns.
  induction l as [|m l IH]; simpl.
  - reflexivity.
  - destruct (useChat.is_error_turn m) eqn:E; simpl.
    + exact IH.
    + rewrite E. simpl. now rewrite IH.
Qed.

Lemma without_error_turns_clean (l : list ChatMessage.t) :
  forallb (fun msg => negb (useChat.is_error_turn msg)) l = true ->
  useChat.without_error_turns l = l.
Proof.
  unfold useChat.without_error_turns.
  induction l as [|m l IH]; simpl.
  - reflexivity.
  - intros H. apply andb_prop in H as [Hm Hl].
    rewrite Hm. now rewrite IH.
Qed.

(** The clean-up keeps the user turns, all of them and in their order. *)
Lemma without_error_turns_user_turns (l : list ChatMessage.t) :
  filter useChat.is_user_turn (useChat.without_error_turns l)
  = filter useChat.is_user_turn l.
Proof.
  unfold useChat.without_error_turns.
  induction l as [|m l IH]; simpl.
  - reflexivity.
  - destruct (useChat.is_error_turn m) eqn:E; simpl.
    + unfold useChat.is_error_turn in E. apply andb_prop in E as [E _].
      unfold useChat.is_user_turn at 2.
      destruct (ChatMessage.message_type m); [discriminate | exact IH].
    + now rewrite IH.
Qed.

Lemma without_error_turns_app (l k : list ChatMessage.t) :
  useChat.without_error_turns (l ++ k)
  = useChat.without_error_turns l ++ useChat.without_error_turns k.
Proof. apply filter_app. Qed.

Lemma sendMessage_begin_accepted (cl : useChat.Closure) (message : jsstring)
    (now : Z) (iso : jsstring) :
  useChat.seen_isLoading cl = false ->
  truthy (trim message) = true ->
  useChat.sendMessage_begin cl message now iso =
  ([useChat.setLastMessageRef message;
    useChat.setIsLoading true;
    useChat.setError None;
    useChat.setMessages (fun prev => prev ++ [useChat.userMessage message now iso])],
   Normal (Some (PostChatMessage
                   {| SendMessageRequest.message := message;
                      SendMessageRequest.session_id :=
                        Some (useChat.seen_currentSessionId cl) |}))).
Proof.
  intros Hl Ht. unfold useChat.sendMessage_begin. rewrite Hl, Ht. reflexivity.
Qed.

Lemma sendMessage_begin_rejected (cl : useChat.Closure) (message : jsstring)
    (now : Z) (iso : jsstring) :
  useChat.seen_isLoading cl = true \/ truthy (trim message) = false ->
  useChat.sendMessage_begin cl message now iso = ([], Normal None).
Proof.
  intros H. unfold useChat.sendMessage_begin.
  destruct H as [-> | ->]; [|rewrite orb_true_r]; reflexivity.
Qed.

(** Whatever the outcome of the request, the rest of [sendMessage] completes
    normally and its last update clears [isLoading]. *)
Lemma sendMessage_resume_total (outcome : Completion ChatResponse.t)
    (now : Z) (iso : jsstring) (st : useChat.State) :
  snd (useChat.sendMessage_resume outcome now iso) = Normal tt
  /\ useChat.isLoading
       (useChat.commit (fst (useChat.sendMessage_resume outcome now iso)) st)
     = false.
Proof. destruct outcome; split; reflexivity. Qed.

(** ** The claims *)

(** C1.  An accepted send (store not loading, text not blank) whose request
    succeeds extends the message log by exactly two entries: the user turn
    with the text, then one assistant turn whose id, content, timestamp,
    evaluation score and retrieved context are those of the response; the
    request carried the text and the active session identifier, nothing
    stays in flight, the handler completes normally and [isLoading] is false
    at the end. *)
Theorem C1_send_success (st : useChat.State) (Q : jsstring)
    (now : Z) (iso : jsstring) (response : ChatResponse.t)
    (now' : Z) (iso' : jsstring) :
  useChat.isLoading st = false ->
  truthy (trim Q) = true ->
  let w0 := {| useChat.hook := st; useChat.inflight := [] |} in
  let w1 := useChat.step w0 (useChat.SendMessage Q now iso) in
  let w2 := useChat.step w1
              (useChat.Settle 0 (useChat.ChatReply (Normal response)) now' iso') in
  useChat.inflight w1 =
    [PostChatMessage
       {| SendMessageRequest.message := Q;
          SendMessageRequest.session_id := Some (useChat.currentSessionId st) |}]
  /\ useChat.messages (useChat.hook w1) =
       useChat.messages st ++
       [ {| ChatMessage.id := now;
            ChatMessage.message_type := user;
            ChatMessage.content := Q;
            ChatMessage.timestamp := iso;
            ChatMessage.evaluation_score := None;
            ChatMessage.retrieved_context := None |} ]
  /\ useChat.messages (useChat.hook w2) =
       useChat.messages st ++
       [ {| ChatMessage.id := now;
            ChatMessage.message_type := user;
            ChatMessage.content := Q;
            ChatMessage.timestamp := iso;
            ChatMessage.evaluation_score := None;
            ChatMessage.retrieved_context := None |};
         {| ChatMessage.id := ChatResponse.message_id response;
            ChatMessage.message_type := assistant;
            ChatMessage.content := ChatResponse.response response;
            ChatMessage.timestamp := ChatResponse.timestamp response;
            ChatMessage.evaluation_score := ChatResponse.evaluation_score response;
            ChatMessage.retrieved_context :=
              Some (ChatResponse.retrieved_context response) |} ]
  /\ List.length (useChat.messages (useChat.hook w2))
     = (List.length (useChat.messages st) + 2)%nat
  /\ snd (useChat.sendMessage_resume (Normal response) now' iso') = Normal tt
  /\ useChat.isLoading (useChat.hook w2) = false
  /\ useChat.error (useChat.hook w2) = None
  /\ useChat.currentSessionId (useChat.hook w2) = useChat.currentSessionId st
  /\ useChat.inflight w2 = [].
Proof.
  intros Hl Ht w0 w1 w2.
  assert (E1 : w1 =
    {| useChat.hook :=
         {| useChat.messages := useChat.messages st ++ [useChat.userMessage Q now iso];
            useChat.currentSessionId := useChat.currentSessionId st;
            useChat.isLoading := true;
            useChat.error := None;
            useChat.lastMessageRef := Q |};
       useChat.inflight :=
         [PostChatMessage
            {| SendMessageRequest.message := Q;
               SendMessageRequest.session_id :=
                 Some (useChat.currentSessionId st) |}] |}).
  { unfold w1, w0, useChat.step, useChat.call. cbn [useChat.hook useChat.inflight].
    rewrite sendMessage_begin_accepted by assumption. reflexivity. }
  unfold w2. rewrite E1. cbn.
  repeat split; try reflexivity.
  - rewrite <- app_assoc. reflexivity.
  - rewrite <- app_assoc, length_app. reflexivity.
Qed.

Lemma C1_send_success_witness :
  let st := useChat.initial 1700000000000 (lit "0.4fzyo82mvyr") in
  let w2 :=
    useChat.run {| useChat.hook := st; useChat.inflight := [] |}
      [useChat.SendMessage (lit "What is diabetes?") 1700000000100 (lit "t1");
       useChat.Settle 0
         (useChat.ChatReply
            (Normal {| ChatResponse.message_id := 1;
                       ChatResponse.session_id := useChat.currentSessionId st;
                       ChatResponse.response := lit "...";
                       ChatResponse.evaluation_score := Some (87 # 100);
                       ChatResponse.retrieved_context := [];
                       ChatResponse.response_time := 1 # 2;
                       ChatResponse.timestamp := lit "t2";
                       ChatResponse.is_medical := true;
                       ChatResponse.query_type := None |}))
         1700000000900 (lit "t3")] in
  List.length (useChat.messages (useChat.hook w2)) = 2%nat
  /\ map ChatMessage.evaluation_score (useChat.messages (useChat.hook w2))
     = [None; Some (87 # 100)]
  /\ useChat.isLoading (useChat.hook w2) = false.
Proof.
  intros st w2.
  pose proof (C1_send_success st (lit "What is diabetes?") 1700000000100 (lit "t1")
                {| ChatResponse.message_id := 1;
                   ChatResponse.session_id := useChat.currentSessionId st;
                   ChatResponse.response := lit "...";
                   ChatResponse.evaluation_score := Some (87 # 100);
                   ChatResponse.retrieved_context := [];
                   ChatResponse.response_time := 1 # 2;
                   ChatResponse.timestamp := lit "t2";
                   ChatResponse.is_medical := true;
                   ChatResponse.query_type := None |}
                1700000000900 (lit "t3") eq_refl eq_refl) as H.
  cbv zeta in H.
  destruct H as (_ & _ & Hm & Hlen & _ & Hload & _).
  split; [exact Hlen|]. split; [|exact Hload].
  unfold w2, useChat.run. cbn [fold_left]. rewrite Hm. reflexivity.
Defined.

(** C2.  An accepted send whose request fails records the error text (the
    message of the thrown [Error], or the fallback) in the [error] cell,
    keeps the user turn and appends after it exactly one assistant turn
    marked as an error turn, clears [isLoading] and completes normally: the
    failure does not leave the handler (whatever the outcome and the state
    it meets, the rest of [sendMessage] completes normally with [isLoading]
    false).  The store then accepts a new message, and a retry re-sends the
    failed text. *)
Theorem C2_send_failure (st : useChat.State) (Q : jsstring)
    (now : Z) (iso : jsstring) (e : Thrown) (now' : Z) (iso' : jsstring) :
  useChat.isLoading st = false ->
  truthy (trim Q) = true ->
  let errorMessage := error_message e (lit "Failed to send message") in
  let errorTurn :=
    {| ChatMessage.id := now' + 1;
       ChatMessage.message_type := assistant;
       ChatMessage.content :=
         useChat.error_marker ++ lit " " ++ errorMessage
         ++ lit ". Please try again.";
       ChatMessage.timestamp := iso';
       ChatMessage.evaluation_score := None;
       ChatMessage.retrieved_context := None |} in
  let w0 := {| useChat.hook := st; useChat.inflight := [] |} in
  let w1 := useChat.step w0 (useChat.SendMessage Q now iso) in
  let w2 := useChat.step w1
              (useChat.Settle 0 (useChat.ChatReply (Throw e)) now' iso') in
  snd (useChat.sendMessage_resume (Throw e) now' iso') = Normal tt
  /\ (forall (outcome : Completion ChatResponse.t) (st0 : useChat.State),
        snd (useChat.sendMessage_resume outcome now' iso') = Normal tt
        /\ useChat.isLoading
             (useChat.commit (fst (useChat.sendMessage_resume outcome now' iso')) st0)
           = false)
  /\ useChat.error (useChat.hook w2) = Some errorMessage
  /\ useChat.messages (useChat.hook w2) =
       useChat.messages st ++ [useChat.userMessage Q now iso; errorTurn]
  /\ ChatMessage.content (useChat.userMessage Q now iso) = Q
  /\ useChat.is_error_turn errorTurn = true
  /\ useChat.isLoading (useChat.hook w2) = false
  /\ useChat.inflight w2 = []
  /\ useChat.lastMessageRef (useChat.hook w2) = Q
  /\ (forall (Q2 : jsstring) (now2 : Z) (iso2 : jsstring),
        truthy (trim Q2) = true ->
        useChat.inflight (useChat.step w2 (useChat.SendMessage Q2 now2 iso2)) =
          [PostChatMessage
             {| SendMessageRequest.message := Q2;
                SendMessageRequest.session_id :=
                  Some (useChat.currentSessionId st) |}])
  /\ (forall (now2 : Z) (iso2 : jsstring),
        let w3 := useChat.step w2 (useChat.RetryLastMessage now2 iso2) in
        useChat.inflight w3 =
          [PostChatMessage
             {| SendMessageRequest.message := Q;
                SendMessageRequest.session_id :=
                  Some (useChat.currentSessionId st) |}]
        /\ useChat.messages (useChat.hook w3) =
             useChat.without_error_turns (useChat.messages st)
             ++ [useChat.userMessage Q now iso; useChat.userMessage Q now2 iso2]).
Proof.
  intros Hl Ht errorMessage errorTurn w0 w1 w2.
  assert (Herr : useChat.is_error_turn errorTurn = true)
    by apply (errorMessageObj_is_error_turn errorMessage now' iso').
  assert (E2 : w2 =
    {| useChat.hook :=
         {| useChat.messages :=
              useChat.messages st ++ [useChat.userMessage Q now iso; errorTurn];
            useChat.currentSessionId := useChat.currentSessionId st;
            useChat.isLoading := false;
            useChat.error := Some errorMessage;
            useChat.lastMessageRef := Q |};
       useChat.inflight := [] |}).
  { unfold w2, w1, w0, useChat.step at 2, useChat.call.
    cbn [useChat.hook useChat.inflight].
    rewrite sendMessage_begin_accepted by assumption. cbn.
    rewrite <- app_assoc. reflexivity. }
  rewrite E2. cbn [useChat.hook useChat.inflight useChat.messages
                   useChat.isLoading useChat.error useChat.lastMessageRef].
  repeat match goal with |- _ /\ _ => split end; try reflexivity.
  - intros outcome st0. apply sendMessage_resume_total.
  - intros Q2 now2 iso2 H2. unfold useChat.step, useChat.call.
    cbn [useChat.hook useChat.inflight].
    rewrite sendMessage_begin_accepted by (assumption || reflexivity).
    reflexivity.
  - intros now2 iso2. unfold useChat.step, useChat.call.
    cbn [useChat.hook useChat.inflight useChat.lastMessageRef].
    unfold useChat.retryLastMessage_begin.
    assert (HQ : truthy Q = true).
    { destruct Q; [|reflexivity]. discriminate Ht. }
    rewrite HQ.
    rewrite sendMessage_begin_accepted by (assumption || reflexivity).
    cbn. split; [reflexivity|].
    rewrite !without_error_turns_app.
    replace (useChat.without_error_turns [useChat.userMessage Q now iso; errorTurn])
      with [useChat.userMessage Q now iso].
    + rewrite <- app_assoc. reflexivity.
    + unfold useChat.without_error_turns. cbn [filter].
      rewrite Herr. reflexivity.
Qed.

Lemma C2_send_failure_witness :
  let st := useChat.initial 1700000000000 (lit "0.4fzyo82mvyr") in
  let w2 :=
    useChat.run {| useChat.hook := st; useChat.inflight := [] |}
      [useChat.SendMessage (lit "Q") 1700000000100 (lit "t1");
       useChat.Settle 0
         (useChat.ChatReply (Throw (ErrorObject (lit "Network Error"))))
         1700000000900 (lit "t3")] in
  useChat.error (useChat.hook w2) = Some (lit "Network Error")
  /\ map ChatMessage.message_type (useChat.messages (useChat.hook w2))
     = [user; assistant]
  /\ useChat.isLoading (useChat.hook w2) = false.
Proof.
  intros st w2.
  pose proof (C2_send_failure st (lit "Q") 1700000000100 (lit "t1")
                (ErrorObject (lit "Network Error")) 1700000000900 (lit "t3")
                eq_refl eq_refl) as H.
  cbv zeta in H.
  destruct H as (_ & _ & He & Hm & _ & _ & Hload & _).
  split; [exact He|]. split; [|exact Hload].
  unfold w2, useChat.run. cbn [fold_left]. rewrite Hm. reflexivity.
Defined.

Lemma is_error_turn_spec (msg : ChatMessage.t) :
  useChat.is_error_turn msg = true
  <-> ChatMessage.message_type msg = assistant
      /\ includes (ChatMessage.content msg) useChat.error_marker = true.
Proof.
  unfold useChat.is_error_turn. rewrite andb_true_iff.
  destruct (ChatMessage.message_type msg); simpl; intuition discriminate.
Qed.

(** C3.  [retryLastMessage] enqueues nothing and sends nothing when no input
    has been recorded.  Otherwise it is the clean-up of the log followed by
    [sendMessage] on the retained input.  The clean-up removes exactly the
    assistant turns whose content contains the error marker, all of them,
    keeps every other turn and the user turns in particular, and is
    idempotent; on a log without error turns the retry is the plain
    [sendMessage].  When the store is not loading, the retry appends the user
    turn to the cleaned log and sends the retained input for the active
    session. *)
Theorem C3_retryLastMessage (st : useChat.State) (now : Z) (iso : jsstring) :
  let last := useChat.lastMessageRef st in
  let r := useChat.retryLastMessage_begin (useChat.render st) last now iso in
  let s := useChat.sendMessage_begin (useChat.render st) last now iso in
  let cleaned := useChat.commit [useChat.setMessages useChat.without_error_turns] st in
  (last = [] -> r = ([], Normal None))
  /\ (last <> [] ->
      snd r = snd s /\ useChat.commit (fst r) st = useChat.commit (fst s) cleaned)
  /\ (forall msg,
        In msg (useChat.messages cleaned)
        <-> In msg (useChat.messages st)
            /\ ~ (ChatMessage.message_type msg = assistant
                  /\ includes (ChatMessage.content msg) useChat.error_marker = true))
  /\ filter useChat.is_user_turn (useChat.messages cleaned)
     = filter useChat.is_user_turn (useChat.messages st)
  /\ useChat.without_error_turns (useChat.messages cleaned)
     = useChat.messages cleaned
  /\ (last <> [] ->
      forallb (fun msg => negb (useChat.is_error_turn msg)) (useChat.messages st)
      = true ->
      snd r = snd s /\ useChat.commit (fst r) st = useChat.commit (fst s) st)
  /\ (useChat.isLoading st = false ->
      truthy (trim last) = true ->
      snd r = Normal (Some (PostChatMessage
                 {| SendMessageRequest.message := last;
                    SendMessageRequest.session_id :=
                      Some (useChat.currentSessionId st) |}))
      /\ useChat.messages (useChat.commit (fst r) st) =
           useChat.without_error_turns (useChat.messages st)
           ++ [useChat.userMessage last now iso]).
Proof.
  intros last r s cleaned.
  assert (Hne : last <> [] ->
                r = (useChat.setMessages useChat.without_error_turns :: fst s, snd s)).
  { intros H. unfold r, useChat.retryLastMessage_begin.
    destruct last as [|c t]; [congruence|]. cbn [truthy].
    fold s. destruct s as [us [o|e]]; reflexivity. }
  split; [|split; [|split; [|split; [|split; [|split]]]]].
  - intros H. unfold r. rewrite H. reflexivity.
  - intros H. rewrite (Hne H). split; reflexivity.
  - intros msg. cbn. rewrite without_error_turns_In.
    rewrite <- is_error_turn_spec.
    destruct (useChat.is_error_turn msg); intuition congruence.
  - cbn. apply without_error_turns_user_turns.
  - cbn. apply without_error_turns_idem.
  - intros H Hc. rewrite (Hne H). split; [reflexivity|]. cbn [fst].
    change (useChat.commit (useChat.setMessages useChat.without_error_turns :: fst s) st)
      with (useChat.commit (fst s) cleaned).
    f_equal. unfold cleaned. cbn. rewrite (without_error_turns_clean _ Hc).
    destruct st; reflexivity.
  - intros Hl Ht.
    assert (H : last <> []) by (intros E; rewrite E in Ht; discriminate).
    rewrite (Hne H). unfold s.
    rewrite sendMessage_begin_accepted by assumption.
    split; reflexivity.
Qed.

Lemma C3_retryLastMessage_witness :
  let w2 :=
    useChat.run
      {| useChat.hook := useChat.initial 1700000000000 (lit "0.4fzyo82mvyr");
         useChat.inflight := [] |}
      [useChat.SendMessage (lit "Q") 1700000000100 (lit "t1");
       useChat.Settle 0
         (useChat.ChatReply (Throw (ErrorObject (lit "Network Error"))))
         1700000000900 (lit "t3")] in
  let r :=
    useChat.retryLastMessage_begin (useChat.render (useChat.hook w2))
      (useChat.lastMessageRef (useChat.hook w2)) 1700000002000 (lit "t4") in
  map ChatMessage.message_type (useChat.messages (useChat.hook w2))
  = [user; assistant]
  /\ snd r = Normal (Some (PostChatMessage
               {| SendMessageRequest.message := lit "Q";
                  SendMessageRequest.session_id :=
                    Some (useChat.currentSessionId (useChat.hook w2)) |}))
  /\ useChat.messages (useChat.commit (fst r) (useChat.hook w2)) =
       [useChat.userMessage (lit "Q") 1700000000100 (lit "t1");
        useChat.userMessage (lit "Q") 1700000002000 (lit "t4")].
Proof.
  intros w2 r.
  split; [reflexivity|].
  exact (proj2 (proj2 (proj2 (proj2 (proj2 (proj2
           (C3_retryLastMessage (useChat.hook w2) 1700000002000 (lit "t4")))))))
           eq_refl eq_refl).
Defined.

(** C4, as stated, fails: [sendMessage] has no length check.  A text of 2001
    code units handed to it by a store that is not loading is appended to the
    log as a user turn and sent. *)
Lemma C4_overlong_text_is_sent :
  let Q := repeat 97%N 2001 in
  let st := useChat.initial 1700000000000 (lit "0.4fzyo82mvyr") in
  let w := useChat.step {| useChat.hook := st; useChat.inflight := [] |}
             (useChat.SendMessage Q 1700000000100 (lit "t1")) in
  2000 < Z.of_nat (List.length Q)
  /\ useChat.messages (useChat.hook w)
     = [useChat.userMessage Q 1700000000100 (lit "t1")]
  /\ useChat.messages (useChat.hook w) <> useChat.messages st
  /\ useChat.inflight w =
       [PostChatMessage
          {| SendMessageRequest.message := Q;
             SendMessageRequest.session_id := Some (useChat.currentSessionId st) |}].
Proof.
  intros Q st w.
  assert (Hm : useChat.messages (useChat.hook w)
               = [useChat.userMessage Q 1700000000100 (lit "t1")])
    by (vm_compute; reflexivity).
  split; [vm_compute; reflexivity|].
  split; [exact Hm|].
  split; [rewrite Hm; discriminate|].
  vm_compute; reflexivity.
Qed.

(** C4, amended.  [sendMessage] enqueues nothing and sends nothing when the
    [isLoading] it captured is true or the text is blank (made of white space
    only).  The length limit is enforced one layer up, by [validateMessage]
    in the submit handler of the input form: a submitted text of more than
    2000 code units, or a blank one, sets the error of the form (for a long
    text that is not blank, the too-long message) and never reaches
    [sendMessage], so the log is unchanged and no request is issued; a text
    that passes is handed to [sendMessage] as it is. *)
Theorem C4_rejections (cl : useChat.Closure) (st : useChat.State)
    (Q : jsstring) (shown : option jsstring) (now : Z) (iso : jsstring) :
  let input := {| MessageInput.message := Q; MessageInput.error := shown |} in
  let s := useChat.sendMessage_begin cl Q now iso in
  let p := submit input cl now iso in
  (useChat.seen_isLoading cl = true \/ forallb is_whitespace Q = true ->
   s = ([], Normal None) /\ useChat.commit (fst s) st = st)
  /\ (2000 < Z.of_nat (List.length Q) \/ forallb is_whitespace Q = true ->
      snd p = ([], Normal None)
      /\ useChat.commit (fst (snd p)) st = st
      /\ isValid (validateMessage Q) = false
      /\ exists text, fst p = [MessageInput.setError (Some text)])
  /\ (2000 < Z.of_nat (List.length Q) -> forallb is_whitespace Q = false ->
      fst p = [MessageInput.setError
                 (Some (lit "Message is too long (max 2000 characters)"))])
  /\ (Z.of_nat (List.length Q) <= 2000 -> forallb is_whitespace Q = false ->
      p = ([MessageInput.setMessage []; MessageInput.setError None], s)).
Proof.
  intros input s p.
  assert (Hp : p = match MessageInput.handleSubmit input with
                   | (us, Some text) => (us, useChat.sendMessage_begin cl text now iso)
                   | (us, None) => (us, ret None)
                   end) by reflexivity.
  unfold MessageInput.handleSubmit, validateMessage in Hp.
  cbn [MessageInput.message input] in Hp.
  rewrite trim_truthy, negb_involutive in Hp.
  unfold validateMessage. rewrite trim_truthy, negb_involutive.
  split; [|split; [|split]].
  - intros H. assert (E : s = ([], Normal None)).
    { apply sendMessage_begin_rejected. rewrite trim_truthy.
      destruct H as [H | H]; [left; exact H | right; rewrite H; reflexivity]. }
    rewrite E. split; reflexivity.
  - intros H. rewrite Hp.
    destruct (forallb is_whitespace Q) eqn:B.
    + cbn. repeat split. eexists; reflexivity.
    + destruct H as [H | H]; [|discriminate].
      apply Z.ltb_lt in H. rewrite H. cbn. repeat split. eexists; reflexivity.
  - intros H B. rewrite Hp, B. apply Z.ltb_lt in H. rewrite H. reflexivity.
  - intros H B. rewrite Hp, B. apply Z.ltb_ge in H. rewrite H. reflexivity.
Qed.

Lemma C4_rejections_witness :
  let Q := repeat 97%N 2001 in
  let st := useChat.initial 1700000000000 (lit "0.4fzyo82mvyr") in
  let p := submit {| MessageInput.message := Q; MessageInput.error := None |}
             (useChat.render st) 1700000000100 (lit "t1") in
  snd p = ([], Normal None)
  /\ useChat.commit (fst (snd p)) st = st
  /\ isValid (validateMessage Q) = false
  /\ exists text, fst p = [MessageInput.setError (Some text)].
Proof.
  intros Q st p.
  apply (proj1 (proj2 (C4_rejections (useChat.render st) st Q None
                         1700000000100 (lit "t1")))).
  left. vm_compute. reflexivity.
Defined.

(** C5, as stated, fails: the response handler compares no session
    identifiers.  A send is issued in one session, the user starts a new
    chat while it is in flight, and the late response is appended to the log
    of the new session. *)
Lemma C5_stale_response_is_applied :
  let w0 := {| useChat.hook := useChat.initial 1700000000000 (lit "0.4fzyo82mvyr");
               useChat.inflight := [] |} in
  let issued_against := useChat.currentSessionId (useChat.hook w0) in
  let response :=
    {| ChatResponse.message_id := 1;
       ChatResponse.session_id := issued_against;
       ChatResponse.response := lit "answer";
       ChatResponse.evaluation_score := None;
       ChatResponse.retrieved_context := [];
       ChatResponse.response_time := 1 # 2;
       ChatResponse.timestamp := lit "t2";
       ChatResponse.is_medical := true;
       ChatResponse.query_type := None |} in
  let w2 := useChat.run w0
              [useChat.SendMessage (lit "Q") 1700000000100 (lit "t1");
               useChat.StartNewChat 1700000000500 (lit "0.zyxwvutsrq")] in
  let w3 := useChat.step w2
              (useChat.Settle 0 (useChat.ChatReply (Normal response))
                 1700000000900 (lit "t3")) in
  useChat.inflight w2 =
    [PostChatMessage {| SendMessageRequest.message := lit "Q";
                        SendMessageRequest.session_id := Some issued_against |}]
  /\ useChat.messages (useChat.hook w2) = []
  /\ useChat.currentSessionId (useChat.hook w3) <> issued_against
  /\ useChat.messages (useChat.hook w3) = [useChat.assistantMessage response].
Proof.
  intros w0 issued_against response w2 w3.
  split; [vm_compute; reflexivity|].
  split; [vm_compute; reflexivity|].
  split; [|vm_compute; reflexivity].
  intros E. vm_compute in E. discriminate E.
Qed.

(** C5, amended.  Switching session or starting a new chat does not cancel a
    send in flight, and the handler of its response carries no session
    identifier: when the response arrives, it appends the assistant turn, or
    the error turn, to whatever message log is current then, whether or not
    the session the request was issued against is still the active one, and
    leaves the active session identifier as it is. *)
Theorem C5_response_joins_current_log (w : useChat.World) (n : nat)
    (request : SendMessageRequest.t) (outcome : Completion ChatResponse.t)
    (now : Z) (iso : jsstring) :
  nth_error (useChat.inflight w) n = Some (PostChatMessage request) ->
  let w' := useChat.step w (useChat.Settle n (useChat.ChatReply outcome) now iso) in
  useChat.currentSessionId (useChat.hook w')
  = useChat.currentSessionId (useChat.hook w)
  /\ useChat.messages (useChat.hook w') =
       useChat.messages (useChat.hook w) ++
       [match outcome with
        | Normal response => useChat.assistantMessage response
        | Throw e =>
            useChat.errorMessageObj
              (error_message e (lit "Failed to send message")) now iso
        end]
  /\ (forall now0 rnd0,
        useChat.inflight (useChat.step w (useChat.StartNewChat now0 rnd0))
        = useChat.inflight w)
  /\ (forall sessionId,
        nth_error
          (useChat.inflight (useChat.step w (useChat.LoadSession sessionId))) n
        = Some (PostChatMessage request)).
Proof.
  intros H w'. unfold w', useChat.step. rewrite H.
  split; [|split; [|split]].
  - destruct outcome; reflexivity.
  - destruct outcome; reflexivity.
  - reflexivity.
  - intros sessionId. cbn. rewrite nth_error_app1; [exact H|].
    apply nth_error_Some. congruence.
Qed.

Lemma C5_response_joins_current_log_witness :
  let w2 :=
    useChat.run
      {| useChat.hook := useChat.initial 1700000000000 (lit "0.4fzyo82mvyr");
         useChat.inflight := [] |}
      [useChat.SendMessage (lit "Q") 1700000000100 (lit "t1");
       useChat.StartNewChat 1700000000500 (lit "0.zyxwvutsrq")] in
  let w3 := useChat.step w2
              (useChat.Settle 0
                 (useChat.ChatReply (Throw (ErrorObject (lit "timeout"))))
                 1700000000900 (lit "t3")) in
  useChat.currentSessionId (useChat.hook w3)
  = useChat.currentSessionId (useChat.hook w2)
  /\ useChat.messages (useChat.hook w3) =
       useChat.messages (useChat.hook w2) ++
       [useChat.errorMessageObj (lit "timeout") 1700000000900 (lit "t3")].
Proof.
  intros w2 w3.
  pose proof (C5_response_joins_current_log w2 0
                {| SendMessageRequest.message := lit "Q";
                   SendMessageRequest.session_id :=
                     Some (generateSessionId 1700000000000 (lit "0.4fzyo82mvyr")) |}
                (Throw (ErrorObject (lit "timeout")))
                1700000000900 (lit "t3") eq_refl) as H.
  cbv zeta in H. destruct H as (Hs & Hm & _).
  split; [exact Hs | exact Hm].
Defined.

(** C6, as stated, fails: [loadSession] does not fetch the full history.
    It asks once for the first page (limit 50, offset 0) and never reads
    [has_more] or [total_count]: when the service answers with 50 messages
    of a session of 120 and says there are more, the log holds those 50
    messages and no further request is in flight. *)
Lemma C6_only_the_first_page_is_loaded :
  let page :=
    map (fun i =>
           {| ChatMessage.id := Z.of_nat i;
              ChatMessage.message_type := if Nat.even i then assistant else user;
              ChatMessage.content := lit "m";
              ChatMessage.timestamp := lit "t";
              ChatMessage.evaluation_score := None;
              ChatMessage.retrieved_context := None |})
        (seq 1 50) in
  let history :=
    {| ChatHistoryResponse.session_id := lit "s1";
       ChatHistoryResponse.messages := page;
       ChatHistoryResponse.total_count := 120;
       ChatHistoryResponse.has_more := true |} in
  let w1 :=
    useChat.step
      {| useChat.hook := useChat.initial 1700000000000 (lit "0.4fzyo82mvyr");
         useChat.inflight := [] |}
      (useChat.LoadSession (lit "s1")) in
  let w2 :=
    useChat.step w1
      (useChat.Settle 0 (useChat.HistoryReply (Normal history))
         1700000000500 (lit "t2")) in
  useChat.inflight w1 = [GetChatHistory (lit "s1") 50 0]
  /\ ChatHistoryResponse.has_more history = true
  /\ Z.of_nat (List.length (useChat.messages (useChat.hook w2))) = 50
  /\ Z.of_nat (List.length (useChat.messages (useChat.hook w2)))
     < ChatHistoryResponse.total_count history
  /\ useChat.currentSessionId (useChat.hook w2) = lit "s1"
  /\ useChat.isLoading (useChat.hook w2) = false
  /\ useChat.inflight w2 = [].
Proof. repeat split; vm_compute; reflexivity. Qed.

(** C6, amended.  For every session identifier, [loadSession] first sets
    [isLoading] and issues one history request for that session, for the
    first page only (limit 50, offset 0), leaving the log and the active
    identifier untouched while the request is in flight.  On success the
    batch it enqueues replaces the log by the messages of that reply and the
    active identifier by the requested one, whatever [has_more] and
    [total_count] say, and no further request is issued; while that batch is
    processed the log is the old one or the fetched one, never a mixture,
    and between events only the state before and the state after the batch
    exist.  On failure the error text is recorded and the log and the active
    identifier are unchanged.  In both cases the handler completes normally
    with [isLoading] false. *)
Theorem C6_loadSession (st : useChat.State) (sessionId : jsstring)
    (outcome : Completion ChatHistoryResponse.t) (now : Z) (iso : jsstring) :
  let b := useChat.loadSession_begin sessionId in
  let st1 := useChat.commit (fst b) st in
  let r := useChat.loadSession_resume sessionId outcome in
  let st2 := useChat.commit (fst r) st1 in
  let w0 := {| useChat.hook := st; useChat.inflight := [] |} in
  let w1 := useChat.step w0 (useChat.LoadSession sessionId) in
  let w2 := useChat.step w1
              (useChat.Settle 0 (useChat.HistoryReply outcome) now iso) in
  snd b = Normal (Some (GetChatHistory sessionId 50 0))
  /\ w1 = {| useChat.hook := st1;
             useChat.inflight := [GetChatHistory sessionId 50 0] |}
  /\ w2 = {| useChat.hook := st2; useChat.inflight := [] |}
  /\ useChat.isLoading st1 = true
  /\ useChat.messages st1 = useChat.messages st
  /\ useChat.currentSessionId st1 = useChat.currentSessionId st
  /\ snd r = Normal tt
  /\ useChat.isLoading st2 = false
  /\ useChat.lastMessageRef st2 = useChat.lastMessageRef st
  /\ match outcome with
     | Normal history =>
         useChat.messages st2 = ChatHistoryResponse.messages history
         /\ useChat.currentSessionId st2 = sessionId
         /\ useChat.error st2 = None
         /\ Forall
              (fun s =>
                 useChat.messages s = useChat.messages st
                 /\ useChat.currentSessionId s = useChat.currentSessionId st
                 \/ useChat.messages s = ChatHistoryResponse.messages history)
              (useChat.states_through (fst r) st1)
         /\ (forall other,
               ChatHistoryResponse.messages other
               = ChatHistoryResponse.messages history ->
               useChat.commit
                 (fst (useChat.loadSession_resume sessionId (Normal other))) st1
               = st2)
     | Throw e =>
         useChat.messages st2 = useChat.messages st
         /\ useChat.currentSessionId st2 = useChat.currentSessionId st
         /\ useChat.error st2
            = Some (error_message e (lit "Failed to load chat history"))
     end.
Proof.
  intros b st1 r st2 w0 w1 w2.
  destruct outcome as [history | e]; cbn;
    repeat match goal with |- _ /\ _ => split end; try reflexivity.
  - repeat (apply Forall_cons; [cbn; auto|]). apply Forall_nil.
  - intros other E. unfold st2, r, st1, b. cbn. now rewrite E.
Qed.

(** ** Session identifiers *)

Lemma lit_String (a : ascii) (s : string) :
  lit (String a s) = N_of_ascii a :: lit s.
Proof. reflexivity. Qed.

Lemma lit_inj (s t : string) : lit s = lit t -> s = t.
Proof.
  revert t. induction s as [|a s IH]; intros [|b t] H;
    try reflexivity; try discriminate H.
  rewrite !lit_String in H. injection H as Hab Hst.
  f_equal.
  - rewrite <- (ascii_N_embedding a), <- (ascii_N_embedding b). now rewrite Hab.
  - now apply IH.
Qed.

Lemma uint_digits_no_minus (d : Decimal.uint) :
  Forall (fun c => c <> 45%N) (lit (NilEmpty.string_of_uint d)).
Proof.
  induction d; cbn [NilEmpty.string_of_uint]; rewrite ?lit_String;
    constructor; try assumption; discriminate.
Qed.

(** The decimal rendering of a number is a non-empty run of digits, after a
    minus sign when the number is negative. *)
Lemma number_to_string_shape (z : Z) :
  exists c digits,
    c <> 45%N /\ Forall (fun c => c <> 45%N) digits
    /\ number_to_string z = (if z <? 0 then [45%N] else []) ++ c :: digits.
Proof.
  assert (U : forall d, d <> Decimal.Nil ->
            exists c digits, c <> 45%N /\ Forall (fun c => c <> 45%N) digits
              /\ lit (NilZero.string_of_uint d) = c :: digits).
  { intros d Hd. pose proof (uint_digits_no_minus d) as F.
    destruct d; try congruence; cbn [NilZero.string_of_uint NilEmpty.string_of_uint] in *;
      rewrite lit_String in *; inversion F; subst; eauto. }
  unfold number_to_string.
  destruct z as [|p|p]; cbn [Z.to_int NilZero.string_of_int Z.ltb Z.compare].
  - apply U. discriminate.
  - apply U. apply DecimalPos.Unsigned.to_uint_nonnil.
  - rewrite lit_String.
    destruct (U (Pos.to_uint p) (DecimalPos.Unsigned.to_uint_nonnil p))
      as (c & digits & Hc & F & E).
    exists c, digits. rewrite E. auto.
Qed.

Lemma number_to_string_inj (z1 z2 : Z) :
  number_to_string z1 = number_to_string z2 -> z1 = z2.
Proof.
  unfold number_to_string. intros H. apply lit_inj in H.
  assert (N : forall z, Z.to_int z <> Decimal.Pos Decimal.Nil
                        /\ Z.to_int z <> Decimal.Neg Decimal.Nil).
  { intros [|p|p]; cbn; split; try discriminate;
      intros E; injection E as E;
      now apply DecimalPos.Unsigned.to_uint_nonnil in E. }
  pose proof (NilZero.isi (Z.to_int z1) (proj1 (N z1)) (proj2 (N z1))) as E1.
  pose proof (NilZero.isi (Z.to_int z2) (proj1 (N z2)) (proj2 (N z2))) as E2.
  rewrite H in E1. rewrite E1 in E2. injection E2 as E2.
  rewrite <- (DecimalZ.of_to z1), <- (DecimalZ.of_to z2). now rewrite E2.
Qed.

Lemma split_at_minus (a b s t : jsstring) :
  Forall (fun c => c <> 45%N) a ->
  Forall (fun c => c <> 45%N) b ->
  a ++ 45%N :: s = b ++ 45%N :: t ->
  a = b /\ s = t.
Proof.
  revert b. induction a as [|x a IH]; intros [|y b] Fa Fb H; cbn in H.
  - injection H as ->. auto.
  - injection H as Hy _. inversion Fb; subst. congruence.
  - injection H as Hx _. inversion Fa; subst. congruence.
  - injection H as -> H. inversion Fa; inversion Fb; subst.
    destruct (IH b) as [-> ->]; auto.
Qed.

(** Two generated identifiers coincide only when the clock readings and the
    random suffixes do. *)
Lemma generateSessionId_inj (now1 now2 : Z) (rnd1 rnd2 : jsstring) :
  generateSessionId now1 rnd1 = generateSessionId now2 rnd2 ->
  now1 = now2 /\ substring rnd1 2 9 = substring rnd2 2 9.
Proof.
  unfold generateSessionId. intros H. apply app_inv_head in H.
  destruct (number_to_string_shape now1) as (c1 & d1 & Hc1 & F1 & E1).
  destruct (number_to_string_shape now2) as (c2 & d2 & Hc2 & F2 & E2).
  assert (K : number_to_string now1 = number_to_string now2
              /\ substring rnd1 2 9 = substring rnd2 2 9).
  { rewrite E1, E2 in *. change (lit "-") with [45%N] in H.
    destruct (now1 <? 0), (now2 <? 0); cbn [app] in H |- *.
    - injection H as Hc H. apply split_at_minus in H; [|assumption ..].
      destruct H as [-> ->]. subst c2. auto.
    - injection H as Hc _. congruence.
    - injection H as Hc _. congruence.
    - injection H as Hc H. apply split_at_minus in H; [|assumption ..].
      destruct H as [-> ->]. subst c2. auto. }
  destruct K as [K1 K2]. split; [now apply number_to_string_inj | exact K2].
Qed.

(** C7, as stated, fails on two counts.  [startNewChat] does not touch
    [isLoading]: started while a send is in flight, the new chat is still
    loading.  And the new identifier is built from the clock and a random
    number alone: with the same readings as the previous identifier it is the
    same identifier. *)
Lemma C7_loading_kept_and_identifier_repeated :
  let w0 := {| useChat.hook := useChat.initial 1700000000000 (lit "0.4fzyo82mvyr");
               useChat.inflight := [] |} in
  let w2 := useChat.run w0
              [useChat.SendMessage (lit "Q") 1700000000100 (lit "t1");
               useChat.StartNewChat 1700000000500 (lit "0.zyxwvutsrq")] in
  let w1' := useChat.step w0
               (useChat.StartNewChat 1700000000000 (lit "0.4fzyo82mvyr")) in
  useChat.isLoading (useChat.hook w2) = true
  /\ useChat.currentSessionId (useChat.hook w1')
     = useChat.currentSessionId (useChat.hook w0).
Proof. split; vm_compute; reflexivity. Qed.

(** C7, amended.  [startNewChat] always yields an empty message log, clears
    the error, installs the identifier generated from the current clock
    reading and random number, leaves [isLoading] and the retained input as
    they were, completes normally and issues no remote request.  The new
    identifier differs from a previous generated one whenever the clock
    reading or the random suffix differs. *)
Theorem C7_startNewChat (w : useChat.World) (now : Z) (rnd : jsstring) :
  let w' := useChat.step w (useChat.StartNewChat now rnd) in
  useChat.messages (useChat.hook w') = []
  /\ useChat.currentSessionId (useChat.hook w') = generateSessionId now rnd
  /\ useChat.error (useChat.hook w') = None
  /\ useChat.isLoading (useChat.hook w') = useChat.isLoading (useChat.hook w)
  /\ useChat.lastMessageRef (useChat.hook w')
     = useChat.lastMessageRef (useChat.hook w)
  /\ snd (useChat.startNewChat now rnd) = Normal tt
  /\ useChat.inflight w' = useChat.inflight w
  /\ (forall now0 rnd0,
        useChat.currentSessionId (useChat.hook w) = generateSessionId now0 rnd0 ->
        now0 <> now \/ substring rnd0 2 9 <> substring rnd 2 9 ->
        useChat.currentSessionId (useChat.hook w')
        <> useChat.currentSessionId (useChat.hook w)).
Proof.
  intros w'. repeat match goal with |- _ /\ _ => split end; try reflexivity.
  intros now0 rnd0 H0 Hd E. cbn in E. rewrite H0 in E.
  apply generateSessionId_inj in E. destruct E as [E1 E2].
  destruct Hd as [Hd | Hd]; [apply Hd | apply Hd]; congruence.
Qed.

Lemma C7_startNewChat_witness :
  let w0 := {| useChat.hook := useChat.initial 1700000000000 (lit "0.4fzyo82mvyr");
               useChat.inflight := [] |} in
  let w' := useChat.step w0
              (useChat.StartNewChat 1700000000500 (lit "0.4fzyo82mvyr")) in
  useChat.currentSessionId (useChat.hook w')
  <> useChat.currentSessionId (useChat.hook w0).
Proof.
  intros w0 w'.
  apply (proj2 (proj2 (proj2 (proj2 (proj2 (proj2 (proj2
           (C7_startNewChat w0 1700000000500 (lit "0.4fzyo82mvyr"))))))))
           1700000000000 (lit "0.4fzyo82mvyr") eq_refl).
  left. discriminate.
Defined.

(** C8.  [deleteSession] enqueues nothing before the remote delete has
    settled: the list is not touched while the request is in flight.  When
    the delete succeeds the entries with that identifier, and only they, are
    removed; when it fails the list is left exactly as it was and the error
    text is recorded.  Either way the handler completes normally. *)
Theorem C8_deleteSession (st : useChatHistory.State) (sessionId : jsstring)
    (outcome : Completion unit) :
  let b := useChatHistory.deleteSession_begin sessionId in
  let r := useChatHistory.deleteSession_resume sessionId outcome in
  let st' := useChatHistory.commit (fst r) st in
  b = ([], Normal (Some (DeleteChatSession sessionId)))
  /\ useChatHistory.commit (fst b) st = st
  /\ snd r = Normal tt
  /\ useChatHistory.loading st' = useChatHistory.loading st
  /\ match outcome with
     | Normal _ =>
         useChatHistory.sessions st'
         = filter (fun session =>
                     negb (jsstring_eqb (ChatSession.session_id session) sessionId))
             (useChatHistory.sessions st)
         /\ (forall session,
               In session (useChatHistory.sessions st')
               <-> In session (useChatHistory.sessions st)
                   /\ ChatSession.session_id session <> sessionId)
         /\ useChatHistory.error st' = useChatHistory.error st
     | Throw e =>
         useChatHistory.sessions st' = useChatHistory.sessions st
         /\ useChatHistory.error st'
            = Some (error_message e (lit "Failed to delete session"))
     end.
Proof.
  intros b r st'.
  destruct outcome as [[] | e]; cbn;
    repeat match goal with |- _ /\ _ => split end; try reflexivity.
  intros session. rewrite filter_In. unfold useChatHistory.keeps.
  rewrite negb_true_iff, jsstring_eqb_false. reflexivity.
Qed.

(** C9, as stated, fails in both directions.  The effect of [ChatInterface]
    scrolls the end marker into view for a viewer who is reading 600px above
    the bottom; the effect of [useAutoScroll] measures the distance after the
    new content has been laid out, and leaves a viewer who was at the very
    bottom where they were when 150px of content are appended. *)
Lemma C9_reader_scrolled_and_bottom_viewer_left :
  let reading := {| scrollTop := 0; scrollHeight := 1000; clientHeight := 400 |} in
  let at_bottom := {| scrollTop := 600; scrollHeight := 1000; clientHeight := 400 |} in
  100 < distance_from_bottom reading
  /\ ChatInterface_scroll_effect (Some tt) (Some (grown 40 reading)) = Some smooth
  /\ distance_from_bottom at_bottom = 0
  /\ useAutoScroll_effect true (Some (grown 150 at_bottom)) = None.
Proof. repeat split. Qed.

(** C9, amended.  Each run of the effect of [useAutoScroll] decides from the
    geometry it reads then: it scrolls to the bottom exactly when it is
    enabled, the element is mounted and the offset is less than 100px from
    the bottom of the content as laid out after the growth.  So a viewer
    100px or more above the bottom before content is appended is never
    scrolled by it, and one closer than that is scrolled exactly when the
    appended height leaves them less than 100px from the new bottom.  The
    effect of [ChatInterface] scrolls the end marker into view on every run
    in which the marker is mounted, whatever the scroll position. *)
Theorem C9_scroll_effects (enabled : bool) (e : Element) (d : Z) :
  (useAutoScroll_effect enabled (Some e)
   = if enabled && (distance_from_bottom e <? 100)
     then Some {| top := scrollHeight e; behavior := smooth |}
     else None)
  /\ useAutoScroll_effect enabled None = None
  /\ (0 <= d -> 100 <= distance_from_bottom e ->
      useAutoScroll_effect enabled (Some (grown d e)) = None)
  /\ (useAutoScroll_effect true (Some (grown d e))
      = Some {| top := scrollHeight e + d; behavior := smooth |}
      <-> distance_from_bottom e + d < 100)
  /\ (useAutoScroll_effect true (Some (grown d e)) = None
      <-> 100 <= distance_from_bottom e + d)
  /\ (forall container, ChatInterface_scroll_effect (Some tt) container = Some smooth)
  /\ (forall container, ChatInterface_scroll_effect None container = None).
Proof.
  assert (A : forall b x,
            useAutoScroll_effect b (Some x)
            = if b && (distance_from_bottom x <? 100)
              then Some {| top := scrollHeight x; behavior := smooth |}
              else None).
  { intros b x. unfold useAutoScroll_effect, distance_from_bottom.
    destruct b; [|reflexivity]. cbn [andb].
    destruct (Z.ltb_spec (scrollHeight x - clientHeight x - 100) (scrollTop x));
      destruct (Z.ltb_spec (scrollHeight x - clientHeight x - scrollTop x) 100);
      (reflexivity || lia). }
  assert (G : distance_from_bottom (grown d e) = distance_from_bottom e + d).
  { unfold distance_from_bottom, grown. cbn. lia. }
  split; [apply A|]. split; [destruct enabled; reflexivity|].
  split; [|split; [|split; [|split]]].
  - intros Hd Hfar. rewrite A, G.
    destruct (Z.ltb_spec (distance_from_bottom e + d) 100); [lia|].
    rewrite andb_false_r. reflexivity.
  - rewrite A, G. cbn [andb grown scrollHeight].
    destruct (Z.ltb_spec (distance_from_bottom e + d) 100);
      split; intros H'; try reflexivity; try lia; discriminate.
  - rewrite A, G. cbn [andb].
    destruct (Z.ltb_spec (distance_from_bottom e + d) 100);
      split; intros H'; try reflexivity; try lia; discriminate.
  - reflexivity.
  - reflexivity.
Qed.

Lemma C9_scroll_effects_witness :
  let reading := {| scrollTop := 0; scrollHeight := 1000; clientHeight := 400 |} in
  useAutoScroll_effect true (Some (grown 40 reading)) = None.
Proof.
  intros reading.
  apply (proj1 (proj2 (proj2 (C9_scroll_effects true reading 40)))).
  - lia.
  - vm_compute. discriminate.
Defined.

Lemma nth_error_snoc {A} (l : list A) (x : A) :
  nth_error (l ++ [x]) (List.length l) = Some x.
Proof.
  rewrite nth_error_app2 by apply Nat.le_refl.
  rewrite Nat.sub_diag. reflexivity.
Qed.

Lemma remove_nth_snoc {A} (l : list A) (x : A) :
  useChat.remove_nth (List.length l) (l ++ [x]) = l.
Proof.
  unfold useChat.remove_nth.
  rewrite firstn_app, Nat.sub_diag, firstn_all. cbn [firstn].
  rewrite skipn_all2 by (rewrite length_app; cbn; lia).
  now rewrite !app_nil_r.
Qed.

(** C10.  [clearChat], [startNewChat] and [loadSession] (before and after
    its request settles) leave the retained input as it is.  Consequently a
    retry issued after a new chat was started, or after another session was
    loaded, sends the input retained from the earlier session with the
    identifier of the session that is active now, and appends it as a user
    turn to the log of that session. *)
Theorem C10_retained_input_survives (w : useChat.World)
    (now : Z) (rnd : jsstring) (sessionId : jsstring)
    (n : nat) (outcome : Completion ChatHistoryResponse.t)
    (history : ChatHistoryResponse.t) (now2 : Z) (iso2 : jsstring) :
  let last := useChat.lastMessageRef (useChat.hook w) in
  let after_new := useChat.step w (useChat.StartNewChat now rnd) in
  let after_load :=
    useChat.run w
      [useChat.LoadSession sessionId;
       useChat.Settle (List.length (useChat.inflight w))
         (useChat.HistoryReply (Normal history)) now2 iso2] in
  useChat.lastMessageRef (useChat.hook (useChat.step w useChat.ClearChat)) = last
  /\ useChat.lastMessageRef (useChat.hook after_new) = last
  /\ useChat.lastMessageRef
       (useChat.hook (useChat.step w (useChat.LoadSession sessionId))) = last
  /\ useChat.lastMessageRef
       (useChat.hook
          (useChat.step w (useChat.Settle n (useChat.HistoryReply outcome) now2 iso2)))
     = last
  /\ (useChat.isLoading (useChat.hook w) = false ->
      truthy (trim last) = true ->
      let retried := useChat.step after_new (useChat.RetryLastMessage now2 iso2) in
      useChat.inflight retried =
        useChat.inflight w ++
        [PostChatMessage
           {| SendMessageRequest.message := last;
              SendMessageRequest.session_id := Some (generateSessionId now rnd) |}]
      /\ useChat.messages (useChat.hook retried) = [useChat.userMessage last now2 iso2])
  /\ (truthy (trim last) = true ->
      let retried := useChat.step after_load (useChat.RetryLastMessage now2 iso2) in
      useChat.currentSessionId (useChat.hook after_load) = sessionId
      /\ useChat.inflight retried =
           useChat.inflight w ++
           [PostChatMessage
              {| SendMessageRequest.message := last;
                 SendMessageRequest.session_id := Some sessionId |}]
      /\ useChat.messages (useChat.hook retried) =
           useChat.without_error_turns (ChatHistoryResponse.messages history)
           ++ [useChat.userMessage last now2 iso2]).
Proof.
  intros last after_new after_load.
  assert (Hlast : forall s, truthy (trim s) = true -> truthy s = true).
  { intros [|c t] H; [discriminate H | reflexivity]. }
  split; [reflexivity|]. split; [reflexivity|]. split; [reflexivity|].
  split; [|split].
  - unfold useChat.step.
    destruct (nth_error (useChat.inflight w) n) as [[| | |]|];
      try reflexivity.
    destruct outcome; reflexivity.
  - intros Hl Ht retried. unfold retried, after_new, useChat.step, useChat.call,
      useChat.run_sync, useChat.retryLastMessage_begin.
    cbn [useChat.hook useChat.inflight].
    change (useChat.lastMessageRef
              (useChat.commit (fst (useChat.startNewChat now rnd)) (useChat.hook w)))
      with last.
    rewrite (Hlast _ Ht).
    rewrite sendMessage_begin_accepted by (exact Hl || exact Ht).
    split; reflexivity.
  - intros Ht retried.
    assert (E : after_load =
      {| useChat.hook :=
           {| useChat.messages := ChatHistoryResponse.messages history;
              useChat.currentSessionId := sessionId;
              useChat.isLoading := false;
              useChat.error := None;
              useChat.lastMessageRef := last |};
         useChat.inflight := useChat.inflight w |}).
    { unfold after_load, useChat.run. cbn [fold_left].
      unfold useChat.step at 2, useChat.call. cbn [useChat.loadSession_begin].
      unfold useChat.step. cbn [useChat.inflight useChat.hook snd fst].
      change (useChat.suspended (snd (useChat.loadSession_begin sessionId)))
        with [GetChatHistory sessionId 50 0].
      rewrite nth_error_snoc, remove_nth_snoc. reflexivity. }
    unfold retried. rewrite E. split; [reflexivity|].
    unfold useChat.step, useChat.call, useChat.retryLastMessage_begin.
    cbn [useChat.hook useChat.inflight useChat.lastMessageRef].
    rewrite (Hlast _ Ht).
    rewrite sendMessage_begin_accepted by (reflexivity || exact Ht).
    split; reflexivity.
Qed.

Lemma C10_retained_input_survives_witness :
  let w2 :=
    useChat.run
      {| useChat.hook := useChat.initial 1700000000000 (lit "0.4fzyo82mvyr");
         useChat.inflight := [] |}
      [useChat.SendMessage (lit "Q") 1700000000100 (lit "t1");
       useChat.Settle 0
         (useChat.ChatReply (Throw (ErrorObject (lit "Network Error"))))
         1700000000900 (lit "t3")] in
  let retried :=
    useChat.run w2
      [useChat.StartNewChat 1700000005000 (lit "0.zyxwvutsrq");
       useChat.RetryLastMessage 1700000009000 (lit "t4")] in
  useChat.inflight retried =
    [PostChatMessage
       {| SendMessageRequest.message := lit "Q";
          SendMessageRequest.session_id :=
            Some (generateSessionId 1700000005000 (lit "0.zyxwvutsrq")) |}]
  /\ useChat.messages (useChat.hook retried)
     = [useChat.userMessage (lit "Q") 1700000009000 (lit "t4")].
Proof.
  intros w2 retried.
  exact (proj1 (proj2 (proj2 (proj2 (proj2
           (C10_retained_input_survives w2 1700000005000 (lit "0.zyxwvutsrq")
              [] 0 (Throw OtherValue)
              {| ChatHistoryResponse.session_id := [];
                 ChatHistoryResponse.messages := [];
                 ChatHistoryResponse.total_count := 0;
                 ChatHistoryResponse.has_more := false |}
              1700000009000 (lit "t4"))))))
           eq_refl eq_refl).
Defined.

(* ================================================================== *)
(** * Further properties of the code *)
(* ================================================================== *)

(** ** Session directory store *)

(** X1.  [refreshSessions] sets [loading], clears the error and asks for the
    first 20 session summaries, leaving the list as it is while the request
    is in flight.  On success the list is replaced wholesale by the
    summaries received; on failure the list is kept and the error text is
    recorded.  Either way the handler completes normally with [loading]
    false. *)
Theorem X1_refreshSessions (st : useChatHistory.State)
    (outcome : Completion (list ChatSession.t)) :
  let b := useChatHistory.refreshSessions_begin in
  let st1 := useChatHistory.commit (fst b) st in
  let r := useChatHistory.refreshSessions_resume outcome in
  let st2 := useChatHistory.commit (fst r) st1 in
  snd b = Normal (Some (GetChatSessions 20 0))
  /\ useChatHistory.loading st1 = true
  /\ useChatHistory.error st1 = None
  /\ useChatHistory.sessions st1 = useChatHistory.sessions st
  /\ snd r = Normal tt
  /\ useChatHistory.loading st2 = false
  /\ match outcome with
     | Normal sessionsData =>
         useChatHistory.sessions st2 = sessionsData
         /\ useChatHistory.error st2 = None
     | Throw e =>
         useChatHistory.sessions st2 = useChatHistory.sessions st
         /\ useChatHistory.error st2
            = Some (error_message e (lit "Failed to load chat sessions"))
     end.
Proof.
  intros b st1 r st2.
  destruct outcome as [sessionsData | e]; cbn;
    repeat match goal with |- _ /\ _ => split end; reflexivity.
Qed.

Lemma filter_twice {A} (f g : A -> bool) (l : list A) :
  filter f (filter g l) = filter (fun x => g x && f x) l.
Proof.
  induction l as [|x l IH]; cbn.
  - reflexivity.
  - destruct (g x); cbn; [destruct (f x)|]; now rewrite IH.
Qed.

Lemma settle_deletes_cons (d : jsstring * Completion unit)
    (ds : list (jsstring * Completion unit)) (st : useChatHistory.State) :
  settle_deletes (d :: ds) st
  = settle_deletes ds
      (useChatHistory.commit
         (fst (useChatHistory.deleteSession_resume (fst d) (snd d))) st).
Proof. reflexivity. Qed.

(** X2.  Deletes compose: after any sequence of settled deletes the list
    holds exactly the sessions none of the successful deletes named, in
    their original order, whatever the order of the deletes and however
    they are mixed with failed ones.  [loading] is never touched, and a
    successful delete does not clear the error: an error recorded earlier is
    still there after any number of successful deletes. *)
Theorem X2_deletes_compose (ds : list (jsstring * Completion unit))
    (st : useChatHistory.State) :
  useChatHistory.sessions (settle_deletes ds st)
  = filter (fun session => negb (deleted_in ds (ChatSession.session_id session)))
      (useChatHistory.sessions st)
  /\ useChatHistory.loading (settle_deletes ds st) = useChatHistory.loading st
  /\ (forallb (fun d => succeeded (snd d)) ds = true ->
      useChatHistory.error (settle_deletes ds st) = useChatHistory.error st).
Proof.
  revert st. induction ds as [|[sessionId outcome] ds IH]; intros st.
  - cbn. repeat split. induction (useChatHistory.sessions st) as [|x l IHl];
      cbn; [reflexivity | now rewrite <- IHl].
  - rewrite settle_deletes_cons.
    destruct (IH (useChatHistory.commit
                    (fst (useChatHistory.deleteSession_resume
                            (fst (sessionId, outcome)) (snd (sessionId, outcome))))
                    st)) as (Hs & Hl & He).
    rewrite Hs, Hl. clear Hs Hl.
    destruct outcome as [[] | e]; cbn in *.
    + split; [|split; [reflexivity | exact He]].
      rewrite filter_twice. apply filter_ext. intros session.
      unfold useChatHistory.keeps. rewrite negb_orb. reflexivity.
    + split; [reflexivity | split; [reflexivity | discriminate]].
Qed.

Lemma X2_deletes_compose_witness :
  let s1 := {| ChatSession.session_id := lit "s1"; ChatSession.created_at := lit "t";
               ChatSession.message_count := 2; ChatSession.is_active := true |} in
  let s2 := {| ChatSession.session_id := lit "s2"; ChatSession.created_at := lit "t";
               ChatSession.message_count := 4; ChatSession.is_active := false |} in
  let st := {| useChatHistory.sessions := [s1; s2];
               useChatHistory.loading := false;
               useChatHistory.error := Some (lit "Failed to delete session") |} in
  useChatHistory.error (settle_deletes [(lit "s2", Normal tt)] st)
  = Some (lit "Failed to delete session").
Proof.
  intros s1 s2 st.
  exact (proj2 (proj2 (X2_deletes_compose [(lit "s2", Normal tt)] st)) eq_refl).
Defined.

(** ** Chat session store *)

(** X3.  [clearChat] empties the log and clears the error, and leaves the
    session identifier, [isLoading], the retained input and the requests in
    flight as they are.  A send in flight is therefore not cancelled: its
    reply lands in the cleared log, which then holds the assistant turn (or
    the error turn) alone, without the user turn it answers. *)
Theorem X3_clearChat_keeps_send_in_flight (w : useChat.World) (n : nat)
    (request : SendMessageRequest.t) (outcome : Completion ChatResponse.t)
    (now : Z) (iso : jsstring) :
  nth_error (useChat.inflight w) n = Some (PostChatMessage request) ->
  let w1 := useChat.step w useChat.ClearChat in
  let w2 := useChat.step w1 (useChat.Settle n (useChat.ChatReply outcome) now iso) in
  useChat.messages (useChat.hook w1) = []
  /\ useChat.error (useChat.hook w1) = None
  /\ useChat.currentSessionId (useChat.hook w1)
     = useChat.currentSessionId (useChat.hook w)
  /\ useChat.isLoading (useChat.hook w1) = useChat.isLoading (useChat.hook w)
  /\ useChat.lastMessageRef (useChat.hook w1)
     = useChat.lastMessageRef (useChat.hook w)
  /\ useChat.inflight w1 = useChat.inflight w
  /\ useChat.messages (useChat.hook w2) =
       [match outcome with
        | Normal response => useChat.assistantMessage response
        | Throw e =>
            useChat.errorMessageObj
              (error_message e (lit "Failed to send message")) now iso
        end]
  /\ useChat.isLoading (useChat.hook w2) = false.
Proof.
  intros H w1 w2.
  repeat match goal with |- _ /\ _ => split end; try reflexivity.
  - unfold w2, w1, useChat.step, useChat.run_sync. cbn [useChat.inflight].
    rewrite H. destruct outcome; reflexivity.
  - unfold w2, w1, useChat.step, useChat.run_sync. cbn [useChat.inflight].
    rewrite H. destruct outcome; reflexivity.
Qed.

Lemma X3_clearChat_keeps_send_in_flight_witness :
  let w :=
    useChat.run (mounted 1700000000000 (lit "0.4fzyo82mvyr"))
      [useChat.SendMessage (lit "Q") 1700000000100 (lit "t1");
       useChat.ClearChat;
       useChat.Settle 0 (useChat.ChatReply (Throw (ErrorObject (lit "timeout"))))
         1700000000900 (lit "t3")] in
  useChat.messages (useChat.hook w)
  = [useChat.errorMessageObj (lit "timeout") 1700000000900 (lit "t3")].
Proof.
  intros w.
  pose proof (X3_clearChat_keeps_send_in_flight
                (useChat.step (mounted 1700000000000 (lit "0.4fzyo82mvyr"))
                   (useChat.SendMessage (lit "Q") 1700000000100 (lit "t1")))
                0
                {| SendMessageRequest.message := lit "Q";
                   SendMessageRequest.session_id :=
                     Some (generateSessionId 1700000000000 (lit "0.4fzyo82mvyr")) |}
                (Throw (ErrorObject (lit "timeout"))) 1700000000900 (lit "t3")
                eq_refl) as H.
  cbv zeta in H. exact (proj1 (proj2 (proj2 (proj2 (proj2 (proj2 (proj2 H))))))).
Defined.

Lemma sendMessage_begin_cases (cl : useChat.Closure) (message : jsstring)
    (now : Z) (iso : jsstring) :
  useChat.sendMessage_begin cl message now iso = ([], Normal None)
  \/ (truthy (trim message) = true
      /\ useChat.sendMessage_begin cl message now iso =
         ([useChat.setLastMessageRef message;
           useChat.setIsLoading true;
           useChat.setError None;
           useChat.setMessages
             (fun prev => prev ++ [useChat.userMessage message now iso])],
          Normal (Some (PostChatMessage
                          {| SendMessageRequest.message := message;
                             SendMessageRequest.session_id :=
                               Some (useChat.seen_currentSessionId cl) |})))).
Proof.
  destruct (useChat.seen_isLoading cl) eqn:Hl.
  - left. apply sendMessage_begin_rejected. now left.
  - destruct (truthy (trim message)) eqn:Ht.
    + right. split; [reflexivity|]. now apply sendMessage_begin_accepted.
    + left. apply sendMessage_begin_rejected. now right.
Qed.

Lemma retryLastMessage_begin_cases (cl : useChat.Closure) (current : jsstring)
    (now : Z) (iso : jsstring) :
  useChat.retryLastMessage_begin cl current now iso = ([], Normal None)
  \/ useChat.retryLastMessage_begin cl current now iso
     = ([useChat.setMessages useChat.without_error_turns], Normal None)
  \/ (truthy (trim current) = true
      /\ useChat.retryLastMessage_begin cl current now iso =
         ([useChat.setMessages useChat.without_error_turns;
           useChat.setLastMessageRef current;
           useChat.setIsLoading true;
           useChat.setError None;
           useChat.setMessages
             (fun prev => prev ++ [useChat.userMessage current now iso])],
          Normal (Some (PostChatMessage
                          {| SendMessageRequest.message := current;
                             SendMessageRequest.session_id :=
                               Some (useChat.seen_currentSessionId cl) |})))).
Proof.
  unfold useChat.retryLastMessage_begin.
  destruct (truthy current); [|now left].
  destruct (sendMessage_begin_cases cl current now iso) as [E | [Ht E]];
    rewrite E; [right; left | right; right; split; [exact Ht|]]; reflexivity.
Qed.

Lemma Forall_remove_nth {A} (P : A -> Prop) (n : nat) (l : list A) :
  Forall P l -> Forall P (useChat.remove_nth n l).
Proof.
  unfold useChat.remove_nth. revert l.
  induction n as [|n IH]; intros [|x l] H; cbn; try constructor.
  - now inversion H.
  - now inversion H.
  - inversion H; subst. now apply IH.
Qed.

Lemma run_cons (w : useChat.World) (e : useChat.Event) (es : list useChat.Event) :
  useChat.run w (e :: es) = useChat.run (useChat.step w e) es.
Proof. reflexivity. Qed.

(** An invariant of [step] holds along every run. *)
Lemma run_invariant (I : useChat.World -> Prop) :
  (forall w e, I w -> I (useChat.step w e)) ->
  forall es w, I w -> I (useChat.run w es).
Proof.
  intros Hstep es. induction es as [|e es IH]; intros w Hw.
  - exact Hw.
  - rewrite run_cons. apply IH, Hstep, Hw.
Qed.

Lemma loading_step (w : useChat.World) (e : useChat.Event) :
  (useChat.isLoading (useChat.hook w) = true -> useChat.inflight w <> []) ->
  useChat.isLoading (useChat.hook (useChat.step w e)) = true ->
  useChat.inflight (useChat.step w e) <> [].
Proof.
  intros Hw. destruct e as [message now iso | now iso | | now rnd | sessionId
                           | n reply now iso]; unfold useChat.step, useChat.call,
                             useChat.run_sync.
  - destruct (sendMessage_begin_cases (useChat.render (useChat.hook w)) message now iso)
      as [E | [_ E]]; rewrite E; cbn.
    + rewrite app_nil_r. exact Hw.
    + intros _ C. now apply app_eq_nil in C as [_ C].
  - destruct (retryLastMessage_begin_cases (useChat.render (useChat.hook w))
                (useChat.lastMessageRef (useChat.hook w)) now iso)
      as [E | [E | [_ E]]]; rewrite E; cbn.
    + rewrite app_nil_r. exact Hw.
    + rewrite app_nil_r. exact Hw.
    + intros _ C. now apply app_eq_nil in C as [_ C].
  - exact Hw.
  - exact Hw.
  - cbn. intros _ C. now apply app_eq_nil in C as [_ C].
  - destruct (nth_error (useChat.inflight w) n) as [[request | sid l o | l o | sid]|];
      destruct reply as [outcome | outcome]; try exact Hw;
      destruct outcome; cbn; discriminate.
Qed.

(** X4.  In every state the hook can reach from mount, [isLoading] is true
    only while a request is in flight: the loading indicator cannot outlive
    the requests that raised it. *)
Theorem X4_loading_has_request_in_flight (now : Z) (rnd : jsstring)
    (es : list useChat.Event) :
  let w := useChat.run (mounted now rnd) es in
  useChat.isLoading (useChat.hook w) = true -> useChat.inflight w <> [].
Proof.
  cbv zeta.
  apply (run_invariant
           (fun w => useChat.isLoading (useChat.hook w) = true ->
                     useChat.inflight w <> [])).
  - intros w e. apply loading_step.
  - cbn. discriminate.
Qed.

Lemma X4_loading_has_request_in_flight_witness :
  useChat.inflight
    (useChat.run (mounted 1700000000000 (lit "0.4fzyo82mvyr"))
       [useChat.SendMessage (lit "Q") 1700000000100 (lit "t1");
        useChat.StartNewChat 1700000000500 (lit "0.zyxwvutsrq")]) <> [].
Proof.
  apply (X4_loading_has_request_in_flight 1700000000000 (lit "0.4fzyo82mvyr")
           [useChat.SendMessage (lit "Q") 1700000000100 (lit "t1");
            useChat.StartNewChat 1700000000500 (lit "0.zyxwvutsrq")]).
  reflexivity.
Defined.

Lemma well_formed_step (w : useChat.World) (e : useChat.Event) :
  (useChat.lastMessageRef (useChat.hook w) = []
   \/ truthy (trim (useChat.lastMessageRef (useChat.hook w))) = true)
  /\ Forall well_formed_request (useChat.inflight w) ->
  (useChat.lastMessageRef (useChat.hook (useChat.step w e)) = []
   \/ truthy (trim (useChat.lastMessageRef (useChat.hook (useChat.step w e)))) = true)
  /\ Forall well_formed_request (useChat.inflight (useChat.step w e)).
Proof.
  intros [Hr Hf].
  destruct e as [message now iso | now iso | | now rnd | sessionId
                | n reply now iso]; unfold useChat.step, useChat.call,
                  useChat.run_sync.
  - destruct (sendMessage_begin_cases (useChat.render (useChat.hook w)) message now iso)
      as [E | [Ht E]]; rewrite E; cbn.
    + rewrite app_nil_r. auto.
    + split; [right; exact Ht|]. apply Forall_app. split; [exact Hf|].
      constructor; [|constructor]. cbn. split; [exact Ht | discriminate].
  - destruct (retryLastMessage_begin_cases (useChat.render (useChat.hook w))
                (useChat.lastMessageRef (useChat.hook w)) now iso)
      as [E | [E | [Ht E]]]; rewrite E; cbn.
    + rewrite app_nil_r. auto.
    + rewrite app_nil_r. auto.
    + split; [right; exact Ht|]. apply Forall_app. split; [exact Hf|].
      constructor; [|constructor]. cbn. split; [exact Ht | discriminate].
  - auto.
  - auto.
  - cbn. split; [exact Hr|]. apply Forall_app. split; [exact Hf|].
    constructor; [|constructor]. cbn. auto.
  - destruct (nth_error (useChat.inflight w) n) as [[request | sid l o | l o | sid]|];
      destruct reply as [outcome | outcome]; auto;
      (split; [destruct outcome; exact Hr | now apply Forall_remove_nth]).
Qed.

(** X5.  In every state the hook can reach from mount, the retained input is
    either empty (nothing recorded yet) or a text that is not blank, every
    chat request in flight carries a text that is not blank together with a
    session identifier, and every other request in flight is a history
    request for the first page (limit 50, offset 0).  In particular a retry
    never sends a blank text. *)
Theorem X5_requests_well_formed (now : Z) (rnd : jsstring)
    (es : list useChat.Event) :
  let w := useChat.run (mounted now rnd) es in
  (useChat.lastMessageRef (useChat.hook w) = []
   \/ truthy (trim (useChat.lastMessageRef (useChat.hook w))) = true)
  /\ Forall well_formed_request (useChat.inflight w).
Proof.
  cbv zeta.
  apply (run_invariant
           (fun w =>
              (useChat.lastMessageRef (useChat.hook w) = []
               \/ truthy (trim (useChat.lastMessageRef (useChat.hook w))) = true)
              /\ Forall well_formed_request (useChat.inflight w))).
  - intros w e. apply well_formed_step.
  - cbn. split; [left; reflexivity | constructor].
Qed.

(** X6.  [isLoading] is one flag shared by sends and loads.  When the
    history request of a [loadSession] settles, in either way, the flag is
    cleared whatever else is in flight, so the next send is accepted and
    joins the requests that were already in flight: a send issued before the
    load is not waited for. *)
Theorem X6_load_settling_unlocks_sends (w : useChat.World) (n : nat)
    (sessionId : jsstring) (limit offset : Z)
    (outcome : Completion ChatHistoryResponse.t) (now : Z) (iso : jsstring)
    (Q : jsstring) (now2 : Z) (iso2 : jsstring) :
  nth_error (useChat.inflight w) n = Some (GetChatHistory sessionId limit offset) ->
  truthy (trim Q) = true ->
  let w1 := useChat.step w (useChat.Settle n (useChat.HistoryReply outcome) now iso) in
  let w2 := useChat.step w1 (useChat.SendMessage Q now2 iso2) in
  useChat.isLoading (useChat.hook w1) = false
  /\ useChat.inflight w1 = useChat.remove_nth n (useChat.inflight w)
  /\ useChat.inflight w2 =
       useChat.remove_nth n (useChat.inflight w) ++
       [PostChatMessage
          {| SendMessageRequest.message := Q;
             SendMessageRequest.session_id :=
               Some (useChat.currentSessionId (useChat.hook w1)) |}].
Proof.
  intros H Ht w1 w2.
  assert (E1 : useChat.isLoading (useChat.hook w1) = false
               /\ useChat.inflight w1 = useChat.remove_nth n (useChat.inflight w)).
  { unfold w1, useChat.step. rewrite H. destruct outcome; split; reflexivity. }
  destruct E1 as [El Ei]. split; [exact El|]. split; [exact Ei|].
  unfold w2. unfold useChat.step at 1. unfold useChat.call.
  rewrite sendMessage_begin_accepted by (exact El || exact Ht).
  cbn [useChat.inflight useChat.suspended snd]. rewrite Ei. reflexivity.
Qed.

Lemma X6_load_settling_unlocks_sends_witness :
  let w :=
    useChat.run (mounted 1700000000000 (lit "0.4fzyo82mvyr"))
      [useChat.SendMessage (lit "first") 1700000000100 (lit "t1");
       useChat.LoadSession (lit "s2")] in
  let w2 :=
    useChat.run w
      [useChat.Settle 1
         (useChat.HistoryReply (Throw (ErrorObject (lit "timeout"))))
         1700000000500 (lit "t2");
       useChat.SendMessage (lit "second") 1700000000900 (lit "t3")] in
  map (fun r => match r with
                | PostChatMessage request => SendMessageRequest.message request
                | _ => []
                end) (useChat.inflight w2)
  = [lit "first"; lit "second"].
Proof.
  intros w w2.
  pose proof (X6_load_settling_unlocks_sends w 1 (lit "s2") 50 0
                (Throw (ErrorObject (lit "timeout"))) 1700000000500 (lit "t2")
                (lit "second") 1700000000900 (lit "t3") eq_refl eq_refl) as H.
  cbv zeta in H. destruct H as (_ & _ & H).
  unfold w2. rewrite !run_cons. change (useChat.run ?x []) with x.
  rewrite H. reflexivity.
Defined.

Lemma retained_step (w : useChat.World) (e : useChat.Event) :
  useChat.lastMessageRef (useChat.hook w) <> [] ->
  useChat.lastMessageRef (useChat.hook (useChat.step w e)) <> [].
Proof.
  intros Hw.
  assert (Hne : forall s, truthy (trim s) = true -> s <> []).
  { intros s H E. rewrite E in H. discriminate H. }
  destruct e as [message now iso | now iso | | now rnd | sessionId
                | n reply now iso]; unfold useChat.step, useChat.call,
                  useChat.run_sync.
  - destruct (sendMessage_begin_cases (useChat.render (useChat.hook w)) message now iso)
      as [E | [Ht E]]; rewrite E; cbn; auto.
  - destruct (retryLastMessage_begin_cases (useChat.render (useChat.hook w))
                (useChat.lastMessageRef (useChat.hook w)) now iso)
      as [E | [E | [Ht E]]]; rewrite E; cbn; auto.
  - exact Hw.
  - exact Hw.
  - exact Hw.
  - destruct (nth_error (useChat.inflight w) n) as [[request | sid l o | l o | sid]|];
      destruct reply as [outcome | outcome]; try exact Hw;
      destruct outcome; exact Hw.
Qed.

(** X7.  The retained input is never cleared: once a text has been
    recorded, every later state of the hook, after any events whatever
    (successful replies, clears, new chats, loads), still holds a recorded
    text, so a retry keeps being possible. *)
Theorem X7_retained_input_never_cleared (w : useChat.World)
    (es : list useChat.Event) :
  useChat.lastMessageRef (useChat.hook w) <> [] ->
  useChat.lastMessageRef (useChat.hook (useChat.run w es)) <> [].
Proof.
  apply (run_invariant
           (fun w => useChat.lastMessageRef (useChat.hook w) <> [])).
  intros w0 e. apply retained_step.
Qed.

Lemma X7_retained_input_never_cleared_witness :
  useChat.lastMessageRef
    (useChat.hook
       (useChat.run
          (useChat.step (mounted 1700000000000 (lit "0.4fzyo82mvyr"))
             (useChat.SendMessage (lit "Q") 1700000000100 (lit "t1")))
          [useChat.ClearChat;
           useChat.StartNewChat 1700000000500 (lit "0.zyxwvutsrq")])) <> [].
Proof.
  apply (X7_retained_input_never_cleared
           (useChat.step (mounted 1700000000000 (lit "0.4fzyo82mvyr"))
              (useChat.SendMessage (lit "Q") 1700000000100 (lit "t1")))).
  discriminate.
Defined.

(** The world after an accepted send and its successful reply. *)
Lemma send_success_state (st : useChat.State) (Q : jsstring)
    (now : Z) (iso : jsstring) (response : ChatResponse.t)
    (now' : Z) (iso' : jsstring) :
  useChat.isLoading st = false ->
  truthy (trim Q) = true ->
  useChat.step
    (useChat.step {| useChat.hook := st; useChat.inflight := [] |}
       (useChat.SendMessage Q now iso))
    (useChat.Settle 0 (useChat.ChatReply (Normal response)) now' iso')
  = {| useChat.hook :=
         {| useChat.messages :=
              useChat.messages st ++
              [useChat.userMessage Q now iso; useChat.assistantMessage response];
            useChat.currentSessionId := useChat.currentSessionId st;
            useChat.isLoading := false;
            useChat.error := None;
            useChat.lastMessageRef := Q |};
       useChat.inflight := [] |}.
Proof.
  intros Hl Ht. unfold useChat.step at 2, useChat.call.
  cbn [useChat.hook useChat.inflight].
  rewrite sendMessage_begin_accepted by assumption. cbn.
  rewrite <- app_assoc. reflexivity.
Qed.

(** X8.  A retry after a successful exchange sends the question again: the
    retained input is not cleared by the answer, so after an accepted send
    and its successful reply (whose text does not contain the error marker)
    [retryLastMessage] appends a second user turn with the same text after
    the answer and issues the same request again. *)
Theorem X8_retry_after_success_resends (st : useChat.State) (Q : jsstring)
    (now : Z) (iso : jsstring) (response : ChatResponse.t)
    (now' : Z) (iso' : jsstring) (now2 : Z) (iso2 : jsstring) :
  useChat.isLoading st = false ->
  truthy (trim Q) = true ->
  includes (ChatResponse.response response) useChat.error_marker = false ->
  let w :=
    useChat.run {| useChat.hook := st; useChat.inflight := [] |}
      [useChat.SendMessage Q now iso;
       useChat.Settle 0 (useChat.ChatReply (Normal response)) now' iso';
       useChat.RetryLastMessage now2 iso2] in
  useChat.messages (useChat.hook w) =
    useChat.without_error_turns (useChat.messages st) ++
    [useChat.userMessage Q now iso;
     useChat.assistantMessage response;
     useChat.userMessage Q now2 iso2]
  /\ useChat.inflight w =
       [PostChatMessage
          {| SendMessageRequest.message := Q;
             SendMessageRequest.session_id := Some (useChat.currentSessionId st) |}].
Proof.
  intros Hl Ht Hm w.
  assert (HQ : truthy Q = true) by (destruct Q; [discriminate Ht | reflexivity]).
  pose proof (send_success_state st Q now iso response now' iso' Hl Ht) as E2.
  unfold w. rewrite !run_cons. change (useChat.run ?x []) with x.
  rewrite E2. unfold useChat.step, useChat.call.
  cbn [useChat.hook useChat.inflight useChat.lastMessageRef].
  unfold useChat.retryLastMessage_begin. rewrite HQ.
  rewrite sendMessage_begin_accepted by (reflexivity || exact Ht).
  cbn -[useChat.without_error_turns]. split; [|reflexivity].
  rewrite !without_error_turns_app.
  replace (useChat.without_error_turns
             [useChat.userMessage Q now iso; useChat.assistantMessage response])
    with [useChat.userMessage Q now iso; useChat.assistantMessage response].
  - now rewrite <- !app_assoc.
  - unfold useChat.without_error_turns, useChat.is_error_turn. cbn. now rewrite Hm.
Qed.

Lemma X8_retry_after_success_resends_witness :
  let response :=
    {| ChatResponse.message_id := 1;
       ChatResponse.session_id := lit "s";
       ChatResponse.response := lit "answer";
       ChatResponse.evaluation_score := None;
       ChatResponse.retrieved_context := [];
       ChatResponse.response_time := 1 # 2;
       ChatResponse.timestamp := lit "t2";
       ChatResponse.is_medical := true;
       ChatResponse.query_type := None |} in
  let w :=
    useChat.run (mounted 1700000000000 (lit "0.4fzyo82mvyr"))
      [useChat.SendMessage (lit "Q") 1700000000100 (lit "t1");
       useChat.Settle 0 (useChat.ChatReply (Normal response)) 1700000000500 (lit "t2");
       useChat.RetryLastMessage 1700000000900 (lit "t3")] in
  map ChatMessage.message_type (useChat.messages (useChat.hook w))
  = [user; assistant; user].
Proof.
  intros response w.
  pose proof (X8_retry_after_success_resends
                (useChat.initial 1700000000000 (lit "0.4fzyo82mvyr")) (lit "Q")
                1700000000100 (lit "t1") response 1700000000500 (lit "t2")
                1700000000900 (lit "t3") eq_refl eq_refl eq_refl) as H.
  cbv zeta in H. destruct H as [H _].
  unfold w, mounted. rewrite H. reflexivity.
Defined.

(** ** Remote service and application shell *)




(** X10.  [checkConnection] never throws and always ends with
    [isReconnecting] false.  When the health probe fails the connection is
    marked lost, the server-unreachable text is shown and the session list
    is not refreshed; when it succeeds the connection is marked up, the
    error is cleared and the session list is refreshed once.  As neither
    [checkApiConnection] nor [refreshSessions] can reject, the [catch]
    clause never runs and its network text is never shown. *)
Theorem X10_checkConnection (H : Type) (health : Completion H)
    (outcome : Completion (list ChatSession.t)) (st : App.State) :
  let refreshed := snd (useChatHistory.refreshSessions_resume outcome) in
  let h := App.checkConnection health refreshed in
  let st' := App.commit (fst h) st in
  snd h = Normal tt
  /\ App.isReconnecting st' = false
  /\ match health with
     | Normal _ =>
         App.isConnected st' = true
         /\ App.appError st' = None
         /\ fst h = [App.setIsReconnecting true;
                     App.setIsConnected true;
                     App.setAppError None;
                     App.refreshSessions;
                     App.setIsReconnecting false]
     | Throw _ =>
         App.isConnected st' = false
         /\ App.appError st'
            = Some (lit "Unable to connect to the API server. Please check if the server is running.")
         /\ ~ In App.refreshSessions (fst h)
     end
  /\ ~ In (App.setAppError
             (Some (lit "Connection failed. Please check your network connection.")))
          (fst h).
Proof.
  intros refreshed h st'.
  assert (R : refreshed = Normal tt) by (destruct outcome; reflexivity).
  unfold st', h. rewrite R.
  destruct health as [payload | e]; cbn;
    repeat match goal with |- _ /\ _ => split end; try reflexivity;
    intros C; repeat (destruct C as [C | C]; [discriminate C|]); exact C.
Qed.

(** X11.  [handleSendMessage] asks for a refresh of the session list after
    every call of [sendMessage], once that call has settled: after a
    successful reply, after a failed one, and also when [sendMessage]
    returned at once because the store was loading or the text blank.  It
    never throws. *)
Theorem X11_handleSendMessage_always_refreshes (cl : useChat.Closure)
    (message : jsstring) (now : Z) (iso : jsstring)
    (outcome : Completion ChatResponse.t) (now' : Z) (iso' : jsstring)
    (listed : Completion (list ChatSession.t)) :
  let sent := sendMessage_promise cl message now iso outcome now' iso' in
  let refreshed := snd (useChatHistory.refreshSessions_resume listed) in
  sent = Normal tt
  /\ App.handleSendMessage message sent refreshed
     = ([App.call_sendMessage message; App.call_refreshSessions], Normal tt).
Proof.
  intros sent refreshed.
  assert (S : sent = Normal tt).
  { unfold sent, sendMessage_promise.
    destruct (sendMessage_begin_cases cl message now iso) as [E | [_ E]];
      rewrite E; cbn [snd]; [reflexivity|].
    apply (sendMessage_resume_total outcome now' iso' (useChat.initial 0 [])). }
  assert (R : refreshed = Normal tt) by (destruct listed; reflexivity).
  rewrite S, R. split; reflexivity.
Qed.

(** X12.  [handleDeleteSession] starts a new chat whenever the deleted
    identifier is the active one it captured, whether or not the remote
    delete succeeded: [deleteSession] swallows the failure, so on a failed
    delete of the active session the chat is reset (empty log, fresh
    identifier) although the session is still listed and the error is
    recorded.  Deleting any other session leaves the chat store untouched.
    The handler never throws. *)
Theorem X12_handleDeleteSession (directory : useChatHistory.State)
    (chat : useChat.State) (sessionId : jsstring) (outcome : Completion unit)
    (now : Z) (rnd : jsstring) :
  let h := App.handleDeleteSession (useChat.currentSessionId chat) sessionId
             outcome now rnd in
  let directory' := useChatHistory.commit (fst (fst h)) directory in
  let chat' := useChat.commit (fst (snd h)) chat in
  snd (fst h) = Normal tt
  /\ snd (snd h) = Normal tt
  /\ (sessionId = useChat.currentSessionId chat ->
      useChat.messages chat' = []
      /\ useChat.currentSessionId chat' = generateSessionId now rnd
      /\ useChat.error chat' = None)
  /\ (sessionId <> useChat.currentSessionId chat -> chat' = chat)
  /\ (forall e, outcome = Throw e ->
        useChatHistory.sessions directory' = useChatHistory.sessions directory
        /\ useChatHistory.error directory'
           = Some (error_message e (lit "Failed to delete session"))).
Proof.
  intros h directory' chat'.
  assert (D : snd (useChatHistory.deleteSession_resume sessionId outcome) = Normal tt)
    by (destruct outcome as [[]|]; reflexivity).
  unfold chat', directory', h, App.handleDeleteSession. cbn [fst snd].
  rewrite D.
  split; [reflexivity|].
  destruct (jsstring_eqb sessionId (useChat.currentSessionId chat)) eqn:E.
  - apply jsstring_eqb_eq in E.
    split; [reflexivity|]. split; [intros _; repeat split|].
    split; [congruence|]. intros e ->. split; reflexivity.
  - apply jsstring_eqb_false in E.
    split; [reflexivity|]. split; [congruence|].
    split; [intros _; destruct chat; reflexivity|].
    intros e ->. split; reflexivity.
Qed.

Lemma X12_handleDeleteSession_witness :
  let chat := useChat.initial 1700000000000 (lit "0.4fzyo82mvyr") in
  let h := App.handleDeleteSession (useChat.currentSessionId chat)
             (useChat.currentSessionId chat)
             (Throw (ErrorObject (lit "Network Error")))
             1700000000500 (lit "0.zyxwvutsrq") in
  useChat.currentSessionId (useChat.commit (fst (snd h)) chat)
  = generateSessionId 1700000000500 (lit "0.zyxwvutsrq").
Proof.
  intros chat h.
  pose proof (X12_handleDeleteSession
                {| useChatHistory.sessions := [];
                   useChatHistory.loading := false;
                   useChatHistory.error := None |}
                chat (useChat.currentSessionId chat)
                (Throw (ErrorObject (lit "Network Error")))
                1700000000500 (lit "0.zyxwvutsrq")) as P.
  cbv zeta in P. destruct P as (_ & _ & P & _).
  exact (proj1 (proj2 (P eq_refl))).
Defined.

(** ** Components *)

(** X13.  The message bubble and the retry agree on what an error turn is:
    with a retry callback, the Retry button is rendered on exactly the turns
    [retryLastMessage] removes, so no turn left by the clean-up shows it;
    the error turn of a failed send shows the button and no evaluation
    score; and a user turn never shows it, even one quoting the marker. *)
Theorem X13_retry_button_marks_removed_turns (message : ChatMessage.t) :
  MessageBubble.shows_retry message true = useChat.is_error_turn message
  /\ MessageBubble.shows_retry message false = false
  /\ (ChatMessage.message_type message = user ->
      MessageBubble.shows_retry message true = false)
  /\ (forall log,
        Forall (fun m => MessageBubble.shows_retry m true = false)
          (useChat.without_error_turns log))
  /\ (forall errorMessage now iso,
        MessageBubble.shows_retry
          (useChat.errorMessageObj errorMessage now iso) true = true
        /\ MessageBubble.shows_evaluation
             (useChat.errorMessageObj errorMessage now iso) = false).
Proof.
  assert (A : forall m, MessageBubble.shows_retry m true = useChat.is_error_turn m).
  { intros m. unfold MessageBubble.shows_retry, MessageBubble.isUser,
      MessageBubble.isError, useChat.is_error_turn.
    change (10060%N :: lit " Error:") with useChat.error_marker.
    rewrite andb_true_r. destruct (ChatMessage.message_type m); reflexivity. }
  split; [apply A|]. split.
  { unfold MessageBubble.shows_retry. now rewrite andb_false_r, andb_false_r. }
  split.
  { intros Hu. rewrite A. unfold useChat.is_error_turn. now rewrite Hu. }
  split.
  - intros log. apply Forall_forall. intros m Hm. rewrite A.
    now apply without_error_turns_In in Hm.
  - intros errorMessage now iso.
    pose proof (errorMessageObj_is_error_turn errorMessage now iso) as E.
    split; [now rewrite A|].
    unfold MessageBubble.shows_evaluation.
    rewrite <- A in E. unfold MessageBubble.shows_retry in E.
    apply andb_prop in E as [_ E]. apply andb_prop in E as [E _].
    now rewrite E, andb_false_r.
Qed.

Lemma X13_retry_button_marks_removed_turns_witness :
  MessageBubble.shows_retry
    (useChat.userMessage (useChat.error_marker ++ lit " quoted") 0 []) true
  = false.
Proof.
  apply (proj1 (proj2 (proj2 (X13_retry_button_marks_removed_turns
           (useChat.userMessage (useChat.error_marker ++ lit " quoted") 0 []))))).
  reflexivity.
Defined.

Lemma HistoryItem_run_counts (session_id : jsstring) (es : list HistoryItem.Event)
    (shown : bool) :
  (2 * List.length (filter HistoryItem.is_onDelete
                      (snd (HistoryItem.run session_id shown es)))
   <= List.length (filter HistoryItem.is_delete_click es)
      + (if shown then 1 else 0))%nat.
Proof.
  revert shown. induction es as [|e es IH]; intros shown.
  - cbn. lia.
  - cbn [HistoryItem.run].
    destruct e, shown; cbn [HistoryItem.handle negb];
      match goal with
      | |- context [HistoryItem.run session_id ?b es] =>
          specialize (IH b); destruct (HistoryItem.run session_id b es) as [s' out']
      end;
      cbn in *; lia.
Qed.

Lemma HistoryItem_run_outputs (session_id : jsstring) (es : list HistoryItem.Event)
    (shown : bool) :
  Forall (fun o => o = HistoryItem.onClick \/ o = HistoryItem.onDelete session_id)
    (snd (HistoryItem.run session_id shown es)).
Proof.
  revert shown. induction es as [|e es IH]; intros shown.
  - constructor.
  - cbn [HistoryItem.run].
    destruct e, shown; cbn [HistoryItem.handle negb];
      match goal with
      | |- context [HistoryItem.run session_id ?b es] =>
          specialize (IH b); destruct (HistoryItem.run session_id b es) as [s' out']
      end;
      cbn in *; auto.
Qed.

(** X14.  Deleting from the session list takes two clicks: over any
    sequence of delete clicks, row clicks and timer expiries on an item that
    starts without the confirmation showing, the item asks for at most one
    delete per two delete clicks, every delete it asks for names its own
    session, and a single delete click never deletes. *)
Theorem X14_delete_needs_two_clicks (session_id : jsstring)
    (es : list HistoryItem.Event) :
  let out := snd (HistoryItem.run session_id false es) in
  (2 * List.length (filter HistoryItem.is_onDelete out)
   <= List.length (filter HistoryItem.is_delete_click es))%nat
  /\ Forall (fun o => o = HistoryItem.onClick \/ o = HistoryItem.onDelete session_id)
       out
  /\ HistoryItem.run session_id false [HistoryItem.DeleteClick] = (true, [])
  /\ HistoryItem.run session_id false
       [HistoryItem.DeleteClick; HistoryItem.Timeout; HistoryItem.DeleteClick]
     = (true, [])
  /\ HistoryItem.run session_id false
       [HistoryItem.DeleteClick; HistoryItem.RowClick; HistoryItem.DeleteClick]
     = (false, [HistoryItem.onDelete session_id]).
Proof.
  intros out. split; [|split; [|repeat split]].
  - pose proof (HistoryItem_run_counts session_id es false) as H.
    cbv iota in H. unfold out. lia.
  - apply HistoryItem_run_outputs.
Qed.

Lemma up_to_app (sep : N) (x y : jsstring) :
  Forall (fun c => c <> sep) x ->
  HistoryItem.up_to sep (x ++ sep :: y) = x.
Proof.
  induction x as [|c x IH]; intros F; cbn.
  - now rewrite N.eqb_refl.
  - inversion F; subst.
    destruct (N.eqb_spec c sep); [contradiction|]. now rewrite IH.
Qed.

Lemma split_pop_app (sep : N) (a t : jsstring) :
  Forall (fun c => c <> sep) t ->
  HistoryItem.split_pop (a ++ sep :: t) sep = t.
Proof.
  intros F. unfold HistoryItem.split_pop.
  rewrite rev_app_distr. cbn [rev]. rewrite <- app_assoc. cbn [app].
  rewrite up_to_app by now apply Forall_rev.
  apply rev_involutive.
Qed.

(** X15.  The title of a session whose identifier was generated by
    [generateSessionId] is ["Chat "] followed by the first six units of the
    random part, provided that part contains no hyphen (it is made of
    base-36 digits): the title does not depend on the clock reading, so two
    sessions whose random parts share their first six units get the same
    title. *)
Theorem X15_sessionTitle_of_generated (now : Z) (rnd : jsstring) :
  Forall (fun c => c <> 45%N) (substring rnd 2 9) ->
  HistoryItem.split_pop (generateSessionId now rnd) 45%N = substring rnd 2 9
  /\ HistoryItem.sessionTitle (generateSessionId now rnd)
     = lit "Chat " ++ firstn 6 (substring rnd 2 9)
  /\ (forall now' rnd',
        Forall (fun c => c <> 45%N) (substring rnd' 2 9) ->
        firstn 6 (substring rnd' 2 9) = firstn 6 (substring rnd 2 9) ->
        HistoryItem.sessionTitle (generateSessionId now' rnd')
        = HistoryItem.sessionTitle (generateSessionId now rnd)).
Proof.
  assert (P : forall n r, Forall (fun c => c <> 45%N) (substring r 2 9) ->
               HistoryItem.split_pop (generateSessionId n r) 45%N = substring r 2 9).
  { intros n r F. unfold generateSessionId.
    change (lit "-" ++ substring r 2 9) with (45%N :: substring r 2 9).
    rewrite app_assoc. now apply split_pop_app. }
  assert (T : forall n r, Forall (fun c => c <> 45%N) (substring r 2 9) ->
               HistoryItem.sessionTitle (generateSessionId n r)
               = lit "Chat " ++ firstn 6 (substring r 2 9)).
  { intros n r F. unfold HistoryItem.sessionTitle. now rewrite (P n r F). }
  intros F. split; [now apply P|]. split; [now apply T|].
  intros now' rnd' F' E. now rewrite (T now' rnd' F'), (T now rnd F), E.
Qed.

Lemma X15_sessionTitle_of_generated_witness :
  HistoryItem.sessionTitle (generateSessionId 1700000000000 (lit "0.4fzyo82mvyr"))
  = lit "Chat 4fzyo8".
Proof.
  refine (proj1 (proj2 (X15_sessionTitle_of_generated 1700000000000
                          (lit "0.4fzyo82mvyr") _))).
  repeat constructor; discriminate.
Defined.

(** ** Helpers *)

(** X16.  [truncateText] returns the text unchanged when it has at most
    [maxLength] units.  Otherwise, for a non-negative [maxLength], it
    returns the first [maxLength] units followed by three dots, [maxLength +
    3] units in all: the result can be longer than the limit, and longer
    than the text itself when the text exceeds the limit by one or two
    units.  For a negative [maxLength] it drops that many units from the end
    and appends the dots. *)
Theorem X16_truncateText (text : jsstring) (maxLength : Z) :
  let len := Z.of_nat (List.length text) in
  let result := truncateText text maxLength in
  (len <= maxLength -> result = text)
  /\ (0 <= maxLength < len ->
      result = firstn (Z.to_nat maxLength) text ++ lit "..."
      /\ Z.of_nat (List.length result) = maxLength + 3)
  /\ (0 <= maxLength -> len - 3 < maxLength < len ->
      len < Z.of_nat (List.length result))
  /\ (maxLength < 0 ->
      result = firstn (Z.to_nat (len + maxLength)) text ++ lit "...").
Proof.
  intros len result. unfold result, truncateText. fold len.
  assert (B : 0 <= maxLength < len ->
              (if len <=? maxLength then text else slice0 text maxLength ++ lit "...")
              = firstn (Z.to_nat maxLength) text ++ lit "..."
              /\ Z.of_nat (List.length (firstn (Z.to_nat maxLength) text ++ lit "..."))
                 = maxLength + 3).
  { intros H. destruct (Z.leb_spec len maxLength); [lia|].
    unfold slice0. fold len. destruct (Z.ltb_spec maxLength 0); [lia|].
    rewrite Z.min_l by lia. split; [reflexivity|].
    rewrite length_app, length_firstn. cbn [lit list_ascii_of_string map List.length].
    unfold len in H. lia. }
  split; [|split; [|split]].
  - intros H. destruct (Z.leb_spec len maxLength); [reflexivity | lia].
  - intros H. destruct (B H) as [E L]. rewrite E. split; [reflexivity | exact L].
  - intros H0 H. destruct (B (conj H0 (proj2 H))) as [E L]. rewrite E, L. lia.
  - intros H. destruct (Z.leb_spec len maxLength); [unfold len in *; lia|].
    unfold slice0. fold len. destruct (Z.ltb_spec maxLength 0); [|lia].
    destruct (Z.max_spec (len + maxLength) 0) as [[Hc ->] | [Hc ->]].
    + replace (Z.to_nat (len + maxLength)) with 0%nat by lia. reflexivity.
    + reflexivity.
Qed.

Lemma X16_truncateText_witness :
  truncateText (lit "abcdef") 5 = lit "abcde..."
  /\ Z.of_nat (List.length (truncateText (lit "abcdef") 5)) = 8.
Proof.
  apply (proj1 (proj2 (X16_truncateText (lit "abcdef") 5))).
  cbn. lia.
Defined.

(** X17.  [formatTimestamp] shows ["Just now"] for anything less than a
    minute old, time stamps in the future included; then whole minutes from
    1 to 59, whole hours from 1 to 23 and whole days from 1 to 6, each
    rounded down; and the locale date from seven days on, as for a time
    stamp that does not parse. *)
Theorem X17_formatTimestamp_bands (time now : Z) (localeDate : jsstring) :
  let age := now - time in
  let result := formatTimestamp (Some time) now localeDate in
  (age < 60000 -> result = lit "Just now")
  /\ (60000 <= age < 3600000 ->
      1 <= age / 60000 <= 59
      /\ result = number_to_string (age / 60000) ++ lit "m ago")
  /\ (3600000 <= age < 86400000 ->
      1 <= age / 3600000 <= 23
      /\ result = number_to_string (age / 3600000) ++ lit "h ago")
  /\ (86400000 <= age < 604800000 ->
      1 <= age / 86400000 <= 6
      /\ result = number_to_string (age / 86400000) ++ lit "d ago")
  /\ (604800000 <= age -> result = localeDate)
  /\ formatTimestamp None now localeDate = localeDate.
Proof.
  intros age result. unfold result, formatTimestamp. fold age.
  change (1000 * 60) with 60000.
  assert (Hh : age / 60000 / 60 = age / 3600000)
    by (rewrite Z.div_div by lia; reflexivity).
  assert (Hd : age / 60000 / 60 / 24 = age / 86400000)
    by (rewrite Hh, Z.div_div by lia; reflexivity).
  rewrite Hd, Hh.
  assert (Dm := Z.div_mod age 60000 ltac:(lia)).
  assert (Bm := Z.mod_pos_bound age 60000 ltac:(lia)).
  assert (Dh := Z.div_mod age 3600000 ltac:(lia)).
  assert (Bh := Z.mod_pos_bound age 3600000 ltac:(lia)).
  assert (Dd := Z.div_mod age 86400000 ltac:(lia)).
  assert (Bd := Z.mod_pos_bound age 86400000 ltac:(lia)).
  repeat match goal with |- _ /\ _ => split end; try reflexivity; intros H;
    try (split; [lia|]);
    repeat match goal with
           | |- context [?a <? ?b] => destruct (Z.ltb_spec a b); try lia
           end;
    reflexivity.
Qed.

Lemma X17_formatTimestamp_bands_witness :
  formatTimestamp (Some 1700000000000) 1700000000000 (lit "11/14/2023")
  = lit "Just now"
  /\ formatTimestamp (Some 1700000900000) 1700000000000 (lit "11/14/2023")
     = lit "Just now".
Proof.
  split.
  - apply (proj1 (X17_formatTimestamp_bands 1700000000000 1700000000000
                    (lit "11/14/2023"))). lia.
  - apply (proj1 (X17_formatTimestamp_bands 1700000900000 1700000000000
                    (lit "11/14/2023"))). lia.
Defined.

(** X18.  [validateMessage] accepts exactly the texts that have a unit other
    than white space and at most 2000 units, and reports an error exactly
    when it rejects.  A text that is blank is reported as empty even when it
    is also too long.  Every text it accepts passes the guard of
    [sendMessage]: a store that is not loading sends it. *)
Theorem X18_validateMessage (message : jsstring) :
  (isValid (validateMessage message) = true
   <-> forallb is_whitespace message = false
       /\ Z.of_nat (List.length message) <= 2000)
  /\ (validation_error (validateMessage message) = None
      <-> isValid (validateMessage message) = true)
  /\ (forallb is_whitespace message = true ->
      validation_error (validateMessage message)
      = Some (lit "Message cannot be empty"))
  /\ (isValid (validateMessage message) = true ->
      forall cl now iso,
        useChat.seen_isLoading cl = false ->
        snd (useChat.sendMessage_begin cl message now iso)
        = Normal (Some (PostChatMessage
                          {| SendMessageRequest.message := message;
                             SendMessageRequest.session_id :=
                               Some (useChat.seen_currentSessionId cl) |}))).
Proof.
  assert (V : isValid (validateMessage message) = true
              <-> forallb is_whitespace message = false
                  /\ Z.of_nat (List.length message) <= 2000).
  { unfold validateMessage. rewrite trim_truthy, negb_involutive.
    destruct (forallb is_whitespace message); cbn.
    - split; [discriminate | intros [C _]; discriminate C].
    - destruct (Z.ltb_spec 2000 (Z.of_nat (List.length message))); cbn;
        split; try discriminate; try (intros [_ C]; lia); auto. }
  split; [exact V|]. split; [|split].
  - unfold validateMessage. rewrite trim_truthy, negb_involutive.
    destruct (forallb is_whitespace message); cbn.
    + split; discriminate.
    + destruct (2000 <? Z.of_nat (List.length message)); cbn;
        split; congruence || discriminate.
  - intros B. unfold validateMessage. rewrite trim_truthy, negb_involutive, B.
    reflexivity.
  - intros Hv cl now iso Hl. apply V in Hv as [B _].
    rewrite sendMessage_begin_accepted; [reflexivity | exact Hl |].
    rewrite trim_truthy, B. reflexivity.
Qed.

Lemma X18_validateMessage_witness :
  validation_error (validateMessage (repeat 32%N 2001))
  = Some (lit "Message cannot be empty").
Proof.
  apply (proj1 (proj2 (proj2 (X18_validateMessage (repeat 32%N 2001))))).
  vm_compute. reflexivity.
Defined.

(** X19.  Identifiers generated at different clock readings are different,
    whatever the random numbers; in particular the identifier installed by
    [startNewChat] differs from the one the hook was mounted with as soon as
    the clock has moved on.  The random part of an identifier has at most
    seven units. *)
Theorem X19_generateSessionId_fresh (now1 now2 : Z) (rnd1 rnd2 : jsstring) :
  now1 <> now2 ->
  generateSessionId now1 rnd1 <> generateSessionId now2 rnd2
  /\ useChat.currentSessionId
       (useChat.hook (useChat.step (mounted now1 rnd1)
                        (useChat.StartNewChat now2 rnd2)))
     <> useChat.currentSessionId (useChat.hook (mounted now1 rnd1))
  /\ (List.length (substring rnd1 2 9) <= 7)%nat.
Proof.
  intros H.
  assert (G : generateSessionId now1 rnd1 <> generateSessionId now2 rnd2).
  { intros E. apply generateSessionId_inj in E. now destruct E. }
  split; [exact G|]. split.
  - cbn. intros E. apply G. now symmetry.
  - unfold substring. cbn [Nat.min Nat.max Nat.sub]. apply firstn_le_length.
Qed.

Lemma X19_generateSessionId_fresh_witness :
  generateSessionId 1700000000000 (lit "0.4fzyo82mvyr")
  <> generateSessionId 1700000000001 (lit "0.4fzyo82mvyr").
Proof.
  apply (X19_generateSessionId_fresh 1700000000000 1700000000001
           (lit "0.4fzyo82mvyr") (lit "0.4fzyo82mvyr")).
  discriminate.
Defined.
